(** * ksensetech: risk classification, pagination and retry

    A shallow embedding of the three scripts of the repository

      - [src/index.js]          (module [Index]):   paginated retrieval with
        plain [fetch], the three signal scorers and the classification loop;
      - [src/unnamed/part_000]  (module [Part000]): the single-page script,
        with its own score constants and its own fever test;
      - [src/unnamed/part_001]  (module [Part001]): [index.js] plus
        [fetchWithRetry].

    The helpers [isInvalid], [parseBP] and [tempScore] have the same text in
    the three files and are embedded once.

    Numbers.  A JavaScript number is embedded as [number]: NaN, the two
    infinities, or a finite value carried as an exact rational.  Rounding to
    binary64 and overflow to Infinity are not modelled: [StringToNumber]
    reads "129.00000000000000001" as a rational above 129 and "1e400" as a
    finite one.  Every constant of the source (99.5, 99.6, 100.9, 120, ...)
    is the decimal the source writes.  Scores, counters, [retries] and
    [attempt] are integers and are carried in [Z].

    Strings.  A string is a [string] of code units below 256.

    The outside.  The network is a script, a list holding how each
    successive call of [fetch] settles; a function that needs an answer the
    script does not hold is left awaiting it.  What a script writes to the
    console, and the requests and sleeps it performs, are returned as a
    list of events; for part_001 the requests, sleeps and "Retrying"
    warnings of [fetchWithRetry] are kept in a trace of their own, page by
    page.  The prompt for the API key and the commented-out submission of
    the payload in [index.js] and part_001 are not embedded; the submission
    of part_000 is. *)

From Stdlib Require Import ZArith QArith Qpower Qround String Ascii List Bool.
From Stdlib Require Import Lia Lqa.
Import ListNotations.

Open Scope Z_scope.

(* ================================================================== *)
(** ** Numbers *)

Inductive number : Type :=
| NaN
| NegInf
| Fin (q : Q)
| PosInf.

(** The IEEE order: [None] as soon as one side is NaN. *)
Definition num_compare (x y : number) : option comparison :=
  match x, y with
  | NaN, _ | _, NaN => None
  | NegInf, NegInf => Some Eq
  | NegInf, _ => Some Lt
  | _, NegInf => Some Gt
  | PosInf, PosInf => Some Eq
  | PosInf, _ => Some Gt
  | _, PosInf => Some Lt
  | Fin a, Fin b => Some (Qcompare a b)
  end.

Definition num_lt (x y : number) : bool :=
  match num_compare x y with Some Lt => true | _ => false end.
Definition num_le (x y : number) : bool :=
  match num_compare x y with Some Lt | Some Eq => true | _ => false end.
Definition num_gt (x y : number) : bool :=
  match num_compare x y with Some Gt => true | _ => false end.
Definition num_ge (x y : number) : bool :=
  match num_compare x y with Some Gt | Some Eq => true | _ => false end.
Definition num_eq (x y : number) : bool :=
  match num_compare x y with Some Eq => true | _ => false end.

Definition num_is_zero (x : number) : bool := num_eq x (Fin 0).

Definition num_sign (x : number) : comparison :=
  match x with
  | NaN => Eq
  | NegInf => Lt
  | PosInf => Gt
  | Fin q => Qcompare q 0
  end.

(** [x + y] *)
Definition num_add (x y : number) : number :=
  match x, y with
  | NaN, _ | _, NaN => NaN
  | PosInf, NegInf | NegInf, PosInf => NaN
  | PosInf, _ | _, PosInf => PosInf
  | NegInf, _ | _, NegInf => NegInf
  | Fin a, Fin b => Fin (Qred (a + b))
  end.

(** [x * y]: with an infinite factor the product is the infinity of the
    product's sign, and NaN when the other factor is zero. *)
Definition num_mul (x y : number) : number :=
  match x, y with
  | NaN, _ | _, NaN => NaN
  | Fin a, Fin b => Fin (Qred (a * b))
  | _, _ =>
      match num_sign x, num_sign y with
      | Eq, _ | _, Eq => NaN
      | Lt, Lt | Gt, Gt => PosInf
      | Lt, Gt | Gt, Lt => NegInf
      end
  end.

(** [Math.min(x, y)] *)
Definition Math_min (x y : number) : number :=
  match num_compare x y with
  | None => NaN
  | Some Gt => y
  | Some _ => x
  end.

(** [2 ** n] for an integral [n] *)
Definition pow2 (n : Z) : number := Fin (Qred (Qpower 2 n)).

Definition num_of_Z (z : Z) : number := Fin (inject_Z z).

(* ================================================================== *)
(** ** Strings: [split] and the string-to-number conversion *)

Definition chars (s : string) : list ascii := list_ascii_of_string s.

(** [s.split(sep)] for a one-character separator: never an empty array. *)
Fixpoint split (sep : ascii) (s : string) : list string :=
  match s with
  | EmptyString => [EmptyString]
  | String c s' =>
      if Ascii.eqb c sep then EmptyString :: split sep s'
      else match split sep s' with
           | h :: t => String c h :: t
           | [] => [String c EmptyString]
           end
  end.

(** White space and line terminators among the code units below 256:
    TAB, LF, VT, FF, CR, SP and NBSP. *)
Definition is_space (c : ascii) : bool :=
  let n := nat_of_ascii c in
  ((9 <=? n) && (n <=? 13) || (n =? 32) || (n =? 160))%nat.

Fixpoint trim_left (l : list ascii) : list ascii :=
  match l with
  | c :: l' => if is_space c then trim_left l' else l
  | [] => []
  end.

Definition trim (l : list ascii) : list ascii :=
  rev (trim_left (rev (trim_left l))).

(** The value of a digit in the given base ([None] when it is none). *)
Definition digit_of (base : Z) (c : ascii) : option Z :=
  let n := Z.of_nat (nat_of_ascii c) in
  let d := if (48 <=? n) && (n <=? 57) then Some (n - 48)
           else if (97 <=? n) && (n <=? 102) then Some (n - 87)
           else if (65 <=? n) && (n <=? 70) then Some (n - 55)
           else None in
  match d with
  | Some v => if v <? base then Some v else None
  | None => None
  end.

(** Reads the longest prefix of digits: the accumulated value, the number of
    digits read, and what is left. *)
Fixpoint read_digits (base acc : Z) (n : nat) (l : list ascii)
  : Z * nat * list ascii :=
  match l with
  | c :: l' =>
      match digit_of base c with
      | Some d => read_digits base (acc * base + d) (S n) l'
      | None => (acc, n, l)
      end
  | [] => (acc, n, [])
  end.

Definition read_sign (l : list ascii) : Z * list ascii :=
  match l with
  | "+"%char :: l' => (1, l')
  | "-"%char :: l' => (-1, l')
  | _ => (1, l)
  end.

(** The exponent part, which must reach the end of the input. *)
Definition parse_exponent (l : list ascii) : option Z :=
  match l with
  | [] => Some 0
  | c :: l1 =>
      if Ascii.eqb c "e" || Ascii.eqb c "E" then
        let '(sg, l2) := read_sign l1 in
        let '(v, n, l3) := read_digits 10 0 0 l2 in
        match n, l3 with
        | S _, [] => Some (sg * v)
        | _, _ => None
        end
      else None
  end.

Definition scaled (m e : Z) : number :=
  Fin (Qred (inject_Z m * Qpower 10 e)).

Definition list_ascii_eqb (a b : list ascii) : bool :=
  String.eqb (string_of_list_ascii a) (string_of_list_ascii b).

(** StrUnsignedDecimalLiteral: [Infinity], [d+ . d* exp?], [. d+ exp?],
    [d+ exp?]. *)
Definition parse_unsigned_decimal (l : list ascii) : number :=
  if list_ascii_eqb l (chars "Infinity") then PosInf
  else
    let '(i, ni, l1) := read_digits 10 0 0 l in
    match l1 with
    | "."%char :: l2 =>
        let '(m, nf, l3) := read_digits 10 i 0 l2 in
        if ((ni =? 0) && (nf =? 0))%nat then NaN
        else match parse_exponent l3 with
             | Some e => scaled m (e - Z.of_nat nf)
             | None => NaN
             end
    | _ =>
        if (ni =? 0)%nat then NaN
        else match parse_exponent l1 with
             | Some e => scaled i e
             | None => NaN
             end
    end.

(** NonDecimalIntegerLiteral after its two-character prefix. *)
Definition parse_radix (base : Z) (l : list ascii) : number :=
  let '(v, n, rest) := read_digits base 0 0 l in
  match n, rest with
  | S _, [] => num_of_Z v
  | _, _ => NaN
  end.

Definition num_neg (x : number) : number :=
  match x with
  | NaN => NaN
  | NegInf => PosInf
  | PosInf => NegInf
  | Fin q => Fin (Qred (- q))
  end.

(** [Number(s)] for a string [s] (StringToNumber). *)
Definition StringToNumber (s : string) : number :=
  match trim (chars s) with
  | [] => Fin 0
  | "0"%char :: x :: l =>
      if Ascii.eqb x "x" || Ascii.eqb x "X" then parse_radix 16 l
      else if Ascii.eqb x "o" || Ascii.eqb x "O" then parse_radix 8 l
      else if Ascii.eqb x "b" || Ascii.eqb x "B" then parse_radix 2 l
      else parse_unsigned_decimal ("0"%char :: x :: l)
  | "+"%char :: l => parse_unsigned_decimal l
  | "-"%char :: l => num_neg (parse_unsigned_decimal l)
  | l => parse_unsigned_decimal l
  end.

(* ================================================================== *)
(** ** Values *)

(** A JavaScript value as the scripts can observe it.  An object (or array)
    is abstracted to the string its [toString()] yields, which is all that
    [typeof] and a numeric coercion can see of it. *)
Inductive value : Type :=
| VUndefined
| VNull
| VBool (b : bool)
| VNum (n : number)
| VStr (s : string)
| VObject (toString : string).

Definition typeof (v : value) : string :=
  match v with
  | VUndefined => "undefined"
  | VNull => "object"
  | VBool _ => "boolean"
  | VNum _ => "number"
  | VStr _ => "string"
  | VObject _ => "object"
  end.

(** [a === b].  The scripts only compare against a primitive; two objects,
    whose identity the abstraction does not keep, compare unequal. *)
Definition strict_eq (a b : value) : bool :=
  match a, b with
  | VUndefined, VUndefined => true
  | VNull, VNull => true
  | VBool x, VBool y => Bool.eqb x y
  | VNum x, VNum y => num_eq x y
  | VStr x, VStr y => String.eqb x y
  | _, _ => false
  end.

(** ToBoolean *)
Definition truthy (v : value) : bool :=
  match v with
  | VUndefined | VNull => false
  | VBool b => b
  | VNum NaN => false
  | VNum n => negb (num_is_zero n)
  | VStr s => negb (String.eqb s "")
  | VObject _ => true
  end.

(** ToNumber *)
Definition ToNumber (v : value) : number :=
  match v with
  | VUndefined => NaN
  | VNull => Fin 0
  | VBool true => Fin 1
  | VBool false => Fin 0
  | VNum n => n
  | VStr s => StringToNumber s
  | VObject s => StringToNumber s
  end.

(** [Number(x)] called as a function *)
Definition Number (v : value) : value := VNum (ToNumber v).

(** [Number.isNaN(x)]: no coercion, only the number NaN qualifies. *)
Definition Number_isNaN (v : value) : bool :=
  match v with
  | VNum NaN => true
  | _ => false
  end.

(** The relational operators with a numeric right operand: the left operand
    is converted by ToNumber. *)
Definition js_lt (v : value) (n : number) : bool := num_lt (ToNumber v) n.
Definition js_le (v : value) (n : number) : bool := num_le (ToNumber v) n.
Definition js_gt (v : value) (n : number) : bool := num_gt (ToNumber v) n.
Definition js_ge (v : value) (n : number) : bool := num_ge (ToNumber v) n.

(** Array destructuring [[a, b] = arr]: a missing element is [undefined]. *)
Definition element (i : nat) (arr : list value) : value :=
  nth i arr VUndefined.

(* ================================================================== *)
(** ** Helpers shared by the three scripts *)

(** What a scorer returns: [{ score }] leaves [invalid] undefined, which
    the routing test reads as false. *)
Record score_result : Type := { score : Z; invalid : bool }.

(** What [parseBP] returns when it does not return [null]. *)
Record parsed_bp : Type := { sys : value; dia : value }.

(** One element of [data]. A property the object lacks reads [VUndefined]. *)
Record patient : Type := {
  patient_id : value;
  blood_pressure : value;
  temperature : value;
  age : value
}.

(** The payload: three arrays of patient ids, in insertion order. *)
Record report : Type := {
  high_risk_patients : list value;
  fever_patients : list value;
  data_quality_issues : list value
}.

(** [arr.push(v)] *)
Definition push (arr : list value) (v : value) : list value := arr ++ [v].

Definition isInvalid (value : value) : bool :=
  strict_eq value VNull || strict_eq value VUndefined
  || strict_eq value (VStr "").

(** [bp.split("/").map(Number)], reached only when [bp] is a string. *)
Definition split_map_Number (bp : value) : list value :=
  match bp with
  | VStr s => map (fun part => Number (VStr part)) (split "/" s)
  | _ => []
  end.

Definition parseBP (bp : value) : option parsed_bp :=
  if isInvalid bp || negb (String.eqb (typeof bp) "string") then None
  else
    let arr := split_map_Number bp in
    let sys := element 0 arr in
    let dia := element 1 arr in
    if Number_isNaN sys || Number_isNaN dia then None
    else Some {| sys := sys; dia := dia |}.

Definition tempScore (temp : value) : score_result :=
  if isInvalid temp || negb (String.eqb (typeof temp) "number") then
    {| score := 0; invalid := true |}
  else if js_le temp (Fin 99.5) then {| score := 0; invalid := false |}
  else if js_ge temp (Fin 99.6) && js_le temp (Fin 100.9) then
    {| score := 1; invalid := false |}
  else if js_ge temp (Fin 101) then {| score := 2; invalid := false |}
  else {| score := 0; invalid := false |}.

(** The parsed 2xx body, [{ data, pagination: { total, hasNext } }].
    [None] stands for a property that is absent. *)
Module Json.
Record pagination_object : Type := { total : value; hasNext : value }.
Record body : Type := {
  data : option (list patient);
  pagination : option pagination_object
}.
End Json.

(** A response: its status, its [retry-after] header ([headers.get] yields
    [null] when there is none) and its body ([None] when it is not JSON). *)
Record response : Type := {
  status : Z;
  retry_after : option string;
  json : option Json.body
}.

(** [res.ok] *)
Definition ok (res : response) : bool :=
  (200 <=? status res) && (status res <=? 299).

(** How one call of [fetch] settles. *)
Inductive fetch_outcome : Type :=
| Resolved (res : response)
| Rejected (reason : string).

(** What the scripts write to the console and ask of the network. *)
Inductive event : Type :=
| LogSys (sys : value)
| LogDia (dia : value)
| LogPage (page : Z) (patients : nat)
| WarnMismatch (processed : Z) (expected : value)
| LogPayload (payload : report)
| Fetch (page limit : Z).

(* ================================================================== *)
(** ** src/index.js *)

Module Index.

Definition bpScore (bp : value) : score_result :=
  match parseBP bp with
  | None => {| score := 0; invalid := true |}
  | Some parsed =>
      let sys := sys parsed in
      let dia := dia parsed in
      if js_lt sys (Fin 120) && js_lt dia (Fin 80) then
        {| score := 0; invalid := false |}
      else if js_ge sys (Fin 120) && js_le sys (Fin 129)
              && js_lt dia (Fin 80) then
        {| score := 1; invalid := false |}
      else if (js_ge sys (Fin 130) && js_le sys (Fin 139))
              || (js_ge dia (Fin 80) && js_le dia (Fin 89)) then
        {| score := 2; invalid := false |}
      else if js_ge sys (Fin 140) || js_ge dia (Fin 90) then
        {| score := 3; invalid := false |}
      else {| score := 0; invalid := false |}
  end.

(** The two [console.log] lines of [bpScore]. *)
Definition bpScore_log (bp : value) : list event :=
  match parseBP bp with
  | None => []
  | Some parsed => [LogSys (sys parsed); LogDia (dia parsed)]
  end.

Definition ageScore (age : value) : score_result :=
  if isInvalid age || negb (String.eqb (typeof age) "number") then
    {| score := 0; invalid := true |}
  else if js_lt age (Fin 40) then {| score := 0; invalid := false |}
  else if js_ge age (Fin 40) && js_le age (Fin 65) then
    {| score := 1; invalid := false |}
  else if js_gt age (Fin 65) then {| score := 2; invalid := false |}
  else {| score := 0; invalid := false |}.

(** The variables of [run]. *)
Record run_state : Type := {
  page : Z;
  processedCount : Z;
  totalExpected : value;
  hasNext : value;
  payload : report;
  console : list event
}.

(** The value of [totalRisk] after line 116. *)
Definition totalRisk (p : patient) : Z :=
  let totalRisk := 0 in
  let bp := bpScore (blood_pressure p) in
  let temp := tempScore (temperature p) in
  let age := ageScore (age p) in
  totalRisk + (score bp + score temp + score age).

(** The body of [for (const p of data)], lines 109-131. *)
Definition classify (st : run_state) (p : patient) : run_state :=
  let totalRisk := 0 in
  let bp := bpScore (blood_pressure p) in
  let temp := tempScore (temperature p) in
  let age := ageScore (age p) in
  let totalRisk := totalRisk + (score bp + score temp + score age) in
  let r := payload st in
  let dq :=
    if invalid bp || invalid temp || invalid age
    then push (data_quality_issues r) (patient_id p)
    else data_quality_issues r in
  let fever :=
    if String.eqb (typeof (temperature p)) "number"
       && js_ge (temperature p) (Fin 99.6)
    then push (fever_patients r) (patient_id p)
    else fever_patients r in
  let high :=
    if totalRisk >=? 4
    then push (high_risk_patients r) (patient_id p)
    else high_risk_patients r in
  {| page := page st;
     processedCount := processedCount st + 1;
     totalExpected := totalExpected st;
     hasNext := hasNext st;
     payload := {| high_risk_patients := high;
                   fever_patients := fever;
                   data_quality_issues := dq |};
     console := console st ++ bpScore_log (blood_pressure p) |}.

Definition classify_all (st : run_state) (data : list patient) : run_state :=
  fold_left classify data st.

Inductive error : Type :=
| FetchRejected (reason : string)
| PatientApiError (page status : Z)
| SyntaxError
| TypeError (reading : string).

(** How [run] ends: its promise resolves, it rejects, or (the scripted
    network having no further answer) it is still awaiting [fetch]. *)
Inductive outcome : Type :=
| Completed (payload : report) (console : list event)
| Thrown (e : error) (console : list event)
| Awaiting (console : list event).

Definition limit : Z := 10.

Definition empty_report : report :=
  {| high_risk_patients := []; fever_patients := [];
     data_quality_issues := [] |}.

Definition initial : run_state :=
  {| page := 1; processedCount := 0; totalExpected := VNull;
     hasNext := VBool true; payload := empty_report; console := [] |}.

Definition log (st : run_state) (e : event) : run_state :=
  {| page := page st; processedCount := processedCount st;
     totalExpected := totalExpected st; hasNext := hasNext st;
     payload := payload st; console := console st ++ [e] |}.

Definition set_totalExpected (st : run_state) (v : value) : run_state :=
  {| page := page st; processedCount := processedCount st;
     totalExpected := v; hasNext := hasNext st;
     payload := payload st; console := console st |}.

(** [hasNext = pagination.hasNext; page++] *)
Definition advance (st : run_state) (v : value) : run_state :=
  {| page := page st + 1; processedCount := processedCount st;
     totalExpected := totalExpected st; hasNext := v;
     payload := payload st; console := console st |}.

(** Lines 137-167: the consistency check and the payload. *)
Definition finish (st : run_state) : outcome :=
  let st :=
    if negb (strict_eq (VNum (num_of_Z (processedCount st)))
                       (totalExpected st))
    then log st (WarnMismatch (processedCount st) (totalExpected st))
    else st in
  let st := log st (LogPayload (payload st)) in
  Completed (payload st) (console st).

(** One turn of [while (hasNext)] after a 2xx response, lines 99-134: the
    next state, or the error thrown with the console as it then stands. *)
Definition process_page (st : run_state) (res : response)
  : run_state + error * list event :=
  match json res with
  | None => inr (SyntaxError, console st)
  | Some json =>
      let data := Json.data json in
      let pagination := Json.pagination json in
      let captured :=
        if strict_eq (totalExpected st) VNull then
          match pagination with
          | Some pg => inl (set_totalExpected st (Json.total pg))
          | None => inr (TypeError "pagination.total", console st)
          end
        else inl st in
      match captured with
      | inr e => inr e
      | inl st =>
          match data with
          | None => inr (TypeError "data.length", console st)
          | Some data =>
              let st := log st (LogPage (page st) (length data)) in
              let st := classify_all st data in
              match pagination with
              | Some pg => inl (advance st (Json.hasNext pg))
              | None => inr (TypeError "pagination.hasNext", console st)
              end
          end
      end
  end.

(** [while (hasNext) { ... }] then the rest of [run], against the scripted
    answers of the network. *)
Fixpoint loop (net : list fetch_outcome) (st : run_state) : outcome :=
  if truthy (hasNext st) then
    let st := log st (Fetch (page st) limit) in
    match net with
    | [] => Awaiting (console st)
    | Rejected reason :: _ => Thrown (FetchRejected reason) (console st)
    | Resolved res :: net' =>
        if negb (ok res) then
          Thrown (PatientApiError (page st) (status res)) (console st)
        else
          match process_page st res with
          | inr (e, out) => Thrown e out
          | inl st' => loop net' st'
          end
    end
  else finish st.

Definition run (net : list fetch_outcome) : outcome := loop net initial.

End Index.

(* ================================================================== *)
(** ** src/unnamed/part_000 *)

Module Part000.

(** Lines 32-45. *)
Definition bpScore (bp : value) : score_result :=
  match parseBP bp with
  | None => {| score := 0; invalid := true |}
  | Some parsed =>
      let sys := sys parsed in
      let dia := dia parsed in
      if js_lt sys (Fin 120) && js_lt dia (Fin 80) then
        {| score := 1; invalid := false |}
      else if js_ge sys (Fin 120) && js_le sys (Fin 129)
              && js_lt dia (Fin 80) then
        {| score := 2; invalid := false |}
      else if (js_ge sys (Fin 130) && js_le sys (Fin 139))
              || (js_ge dia (Fin 80) && js_le dia (Fin 89)) then
        {| score := 3; invalid := false |}
      else if js_ge sys (Fin 140) || js_ge dia (Fin 90) then
        {| score := 4; invalid := false |}
      else {| score := 0; invalid := false |}
  end.

(** Lines 59-69. *)
Definition ageScore (age : value) : score_result :=
  if isInvalid age || negb (String.eqb (typeof age) "number") then
    {| score := 0; invalid := true |}
  else if js_lt age (Fin 40) then {| score := 1; invalid := false |}
  else if js_le age (Fin 65) then {| score := 1; invalid := false |}
  else if js_gt age (Fin 65) then {| score := 2; invalid := false |}
  else {| score := 0; invalid := false |}.

(** The value of [totalRisk] after line 98. *)
Definition totalRisk (p : patient) : Z :=
  let totalRisk := 0 in
  let bp := bpScore (blood_pressure p) in
  let temp := tempScore (temperature p) in
  let age := ageScore (age p) in
  totalRisk + (score bp + score temp + score age).

(** The body of [for (const p of patients)], lines 91-111. *)
Definition classify (r : report) (p : patient) : report :=
  let totalRisk := 0 in
  let bp := bpScore (blood_pressure p) in
  let temp := tempScore (temperature p) in
  let age := ageScore (age p) in
  let totalRisk := totalRisk + (score bp + score temp + score age) in
  let dq :=
    if invalid bp || invalid temp || invalid age
    then push (data_quality_issues r) (patient_id p)
    else data_quality_issues r in
  let fever :=
    if js_ge (temperature p) (Fin 99.6)
    then push (fever_patients r) (patient_id p)
    else fever_patients r in
  let high :=
    if totalRisk >=? 4
    then push (high_risk_patients r) (patient_id p)
    else high_risk_patients r in
  {| high_risk_patients := high;
     fever_patients := fever;
     data_quality_issues := dq |}.

Definition classify_all (r : report) (patients : list patient) : report :=
  fold_left classify patients r.

(** How the [fetch] of [SUBMIT_URL] settles: a response, with its status,
    its text and its body read as JSON ([None] when it is not JSON), or a
    rejection. *)
Inductive submit_outcome : Type :=
| SubmitResolved (status : Z) (text : string) (json : option value)
| SubmitRejected (reason : string).

Inductive error : Type :=
| FetchRejected (reason : string)
| PatientApiError (status : Z)
| SyntaxError
| TypeError (reading : string)
| SubmissionFailed (status : Z) (errText : string).

(** What [run] asks of the network and writes to the console.  [Submit]
    carries the payload whose serialisation is the body of the POST. *)
Inductive action : Type :=
| FetchPatients
| Submit (payload : report)
| LogSuccess
| LogSubmitJson (submitJson : value).

Inductive outcome : Type :=
| Completed (trace : list action)
| Thrown (e : error) (trace : list action)
| Awaiting (trace : list action).

(** Lines 119-135: the submission of the payload. *)
Definition submit (payload : report) (second : option submit_outcome)
  : outcome :=
  let trace := [FetchPatients; Submit payload] in
  match second with
  | None => Awaiting trace
  | Some (SubmitRejected reason) => Thrown (FetchRejected reason) trace
  | Some (SubmitResolved status errText json) =>
      if negb ((200 <=? status) && (status <=? 299)) then
        Thrown (SubmissionFailed status errText) trace
      else
        match json with
        | None => Thrown SyntaxError trace
        | Some submitJson =>
            Completed (trace ++ [LogSuccess; LogSubmitJson submitJson])
        end
  end.

(** [run(apiKey)], lines 73-136, against how its two calls of [fetch]
    settle ([None]: the call never settles). *)
Definition run (first : option fetch_outcome)
           (second : option submit_outcome) : outcome :=
  match first with
  | None => Awaiting [FetchPatients]
  | Some (Rejected reason) => Thrown (FetchRejected reason) [FetchPatients]
  | Some (Resolved res) =>
      if negb (ok res) then
        Thrown (PatientApiError (status res)) [FetchPatients]
      else
        match json res with
        | None => Thrown SyntaxError [FetchPatients]
        | Some json =>
            match Json.data json with
            | None => Thrown (TypeError "patients") [FetchPatients]
            | Some patients =>
                let payload :=
                  classify_all {| high_risk_patients := [];
                                  fever_patients := [];
                                  data_quality_issues := [] |} patients in
                submit payload second
            end
        end
  end.

(** The payloads submitted in a trace. *)
Definition submitted (t : list action) : list report :=
  flat_map (fun a => match a with Submit p => [p] | _ => [] end) t.

Definition trace_of (o : outcome) : list action :=
  match o with
  | Completed t | Thrown _ t | Awaiting t => t
  end.

End Part000.

(* ================================================================== *)
(** ** src/unnamed/part_001 *)

Module Part001.

(** Lines 87-127 repeat lines 32-72 of [index.js] word for word. *)
Definition bpScore : value -> score_result := Index.bpScore.
Definition ageScore : value -> score_result := Index.ageScore.

(** The three errors [fetchWithRetry] can reject with. *)
Inductive exn : Type :=
| FailedAfter (retries status : Z)
| NonRetryable (status : Z)
| NetworkError (reason : string).

(** What one invocation does to the outside: a request, the [console.warn]
    line before a retry (with the rounded delay), a [sleep]. *)
Inductive io : Type :=
| Request
| Warn (status attempt retries : Z) (delay : number)
| Sleep (ms : number).

(** The outside during one attempt: how [fetch] settles, and the value
    [Math.random()] has to offer, in [0, 1). *)
Record attempt_env : Type := { fetched : fetch_outcome; random : Q }.

(** [Math.round] *)
Definition Math_round (x : number) : number :=
  match x with
  | Fin q => num_of_Z (Qfloor (q + (1 # 2)))
  | _ => x
  end.

(** [[429, 500, 502, 503].includes(res.status)] *)
Definition retryable (status : Z) : bool :=
  existsb (Z.eqb status) [429; 500; 502; 503].

(** [Math.min(1000 * 2 ** (attempt - 1), 10000)] *)
Definition backoff (attempt : Z) : number :=
  Math_min (num_mul (Fin 1000) (pow2 (attempt - 1))) (Fin 10000).

(** How a block is left. [Retry] is
    [return fetchWithRetry(url, options, retries, attempt + 1)]. *)
Inductive completion : Type :=
| Return (res : response)
| Retry
| Throw (err : exn).

(** The [try] block, lines 20-58. *)
Definition try_block (w : attempt_env) (retries attempt : Z)
  : completion * list io :=
  match fetched w with
  | Rejected reason => (Throw (NetworkError reason), [Request])
  | Resolved res =>
      if ok res then (Return res, [Request])
      else if retryable (status res) then
        if attempt >? retries then
          (Throw (FailedAfter retries (status res)), [Request])
        else
          let retryAfter := retry_after res in
          let baseDelay :=
            match retryAfter with
            | Some h =>
                if truthy (VStr h)
                then num_mul (ToNumber (VStr h)) (Fin 1000)
                else backoff attempt
            | None => backoff attempt
            end in
          let jitter := num_mul (Fin (random w)) (Fin 300) in
          let delay := num_add baseDelay jitter in
          (Retry, [Request;
                   Warn (status res) attempt retries (Math_round delay);
                   Sleep delay])
      else (Throw (NonRetryable (status res)), [Request])
  end.

(** The [catch] block, lines 59-67: it receives whatever the [try] block
    threw. *)
Definition catch_block (err : exn) (retries attempt : Z)
  : completion * list io :=
  if attempt <=? retries then (Retry, [Sleep (backoff attempt)])
  else (Throw err, []).

(** How the returned promise settles. *)
Inductive settled : Type :=
| Fulfilled (res : response)
| RejectedWith (err : exn).

(** [fetchWithRetry(url, options, retries, attempt)] against the scripted
    outside, one entry per attempt: how the promise settles ([None] when the
    script ends while a request is in flight), what was done, and the unused
    part of the script.  The recursive call is returned, not awaited, so
    what it throws does not pass through this invocation's [catch]. *)
Fixpoint fetchWithRetry (net : list attempt_env) (retries attempt : Z)
  : option settled * list io * list attempt_env :=
  match net with
  | [] => (None, [Request], [])
  | w :: net' =>
      let '(c, io1) := try_block w retries attempt in
      let '(c, io2) :=
        match c with
        | Throw err => catch_block err retries attempt
        | _ => (c, [])
        end in
      match c with
      | Return res => (Some (Fulfilled res), io1 ++ io2, net')
      | Throw err => (Some (RejectedWith err), io1 ++ io2, net')
      | Retry =>
          let '(r, io3, rest) := fetchWithRetry net' retries (attempt + 1) in
          (r, io1 ++ io2 ++ io3, rest)
      end
  end.

(** [fetchWithRetry(url, options)]: [retries = 5, attempt = 1]. *)
Definition fetchWithRetry_default (net : list attempt_env)
  : option settled * list io * list attempt_env :=
  fetchWithRetry net 5 1.

Definition is_request (e : io) : bool :=
  match e with Request => true | _ => false end.

(** The number of requests in a trace. *)
Definition requests (t : list io) : nat := length (filter is_request t).

(** An attempt answered by a response of the given status, with the given
    [retry-after] header and no body. *)
Definition answered (status : Z) (hint : option string) (random : Q)
  : attempt_env :=
  {| fetched := Resolved {| status := status; retry_after := hint;
                            json := None |};
     random := random |}.

(** The attempt was answered by a response with a retryable status. *)
Definition answered_retryable (w : attempt_env) : bool :=
  match fetched w with
  | Resolved res => retryable (status res)
  | Rejected _ => false
  end.

(** The attempt was answered by a response whose status is neither 2xx nor
    retryable. *)
Definition answered_terminal (w : attempt_env) : bool :=
  match fetched w with
  | Resolved res => negb (ok res) && negb (retryable (status res))
  | Rejected _ => false
  end.

(** The status observed in an attempt (0 when [fetch] itself failed). *)
Definition status_of (w : attempt_env) : Z :=
  match fetched w with
  | Resolved res => status res
  | Rejected _ => 0
  end.

Definition is_sleep (e : io) : bool :=
  match e with Sleep _ => true | _ => false end.

(** The number of sleeps in a trace. *)
Definition sleeps (t : list io) : nat := length (filter is_sleep t).

(** The attempt did not yield a 2xx response. *)
Definition failing (w : attempt_env) : bool :=
  match fetched w with
  | Resolved res => negb (ok res)
  | Rejected _ => true
  end.

(** What a failing attempt throws in the [try] block. *)
Definition error_of (retries : Z) (w : attempt_env) : exn :=
  match fetched w with
  | Resolved res =>
      if retryable (status res) then FailedAfter retries (status res)
      else NonRetryable (status res)
  | Rejected reason => NetworkError reason
  end.

(** How [run] of part_001 ends.  The console lines of [run] and [bpScore]
    and what the invocations of [fetchWithRetry] did, page by page, are
    kept apart. *)
Inductive run_outcome : Type :=
| Completed (payload : report) (console : list event) (net : list (Z * io))
| Thrown (e : exn + Index.error) (console : list event)
         (net : list (Z * io))
| Awaiting (console : list event) (net : list (Z * io)).

(** Lines 192-222, the text of lines 137-167 of [index.js]. *)
Definition finish (st : Index.run_state) (net : list (Z * io))
  : run_outcome :=
  match Index.finish st with
  | Index.Completed payload console => Completed payload console net
  | Index.Thrown e console => Thrown (inr e) console net
  | Index.Awaiting console => Awaiting console net
  end.

(** [while (hasNext) { ... }] of lines 143-190 and the rest of [run].  The
    outside holds one script per invocation of [fetchWithRetry]; what an
    invocation leaves unused of its script is dropped.  Lines 154-189 are
    the text of lines 99-134 of [index.js]. *)
Fixpoint loop (outside : list (list attempt_env)) (st : Index.run_state)
         (net : list (Z * io)) : run_outcome :=
  if truthy (Index.hasNext st) then
    match outside with
    | [] => Awaiting (Index.console st) (net ++ [(Index.page st, Request)])
    | script :: outside' =>
        let '(r, t, _) := fetchWithRetry_default script in
        let net := net ++ map (pair (Index.page st)) t in
        match r with
        | None => Awaiting (Index.console st) net
        | Some (RejectedWith err) => Thrown (inl err) (Index.console st) net
        | Some (Fulfilled res) =>
            if negb (ok res) then
              Thrown (inr (Index.PatientApiError (Index.page st)
                             (status res)))
                     (Index.console st) net
            else
              match Index.process_page st res with
              | inr (e, out) => Thrown (inr e) out net
              | inl st' => loop outside' st' net
              end
        end
    end
  else finish st net.

Definition run (outside : list (list attempt_env)) : run_outcome :=
  loop outside Index.initial [].

End Part001.

(* ================================================================== *)
(** ** The specification's wording, for comparison with the code *)

Module Spec.

(** "Total risk = sum of the three signal scores (each independently valid
    or defaulted-to-0 on invalidity)": what one signal contributes. *)
Definition contribution (r : score_result) : Z :=
  if invalid r then 0 else score r.

(** The five-branch blood-pressure table of section 4.3, read top down:
    the first row that applies gives the score. *)
Definition bp_table (S D : number) : Z :=
  if num_lt S (Fin 120) && num_lt D (Fin 80) then 0
  else if (num_le (Fin 120) S && num_le S (Fin 129)) && num_lt D (Fin 80)
  then 1
  else if (num_le (Fin 130) S && num_le S (Fin 139))
          || (num_le (Fin 80) D && num_le D (Fin 89)) then 2
  else if num_le (Fin 140) S || num_le (Fin 90) D then 3
  else 0.

(** "Age: <40 -> 0; 40-65 inclusive -> 1; >65 -> 2", on a finite age. *)
Definition age_band (a : Q) : Z :=
  match Qcompare a 40, Qcompare a 65 with
  | Lt, _ => 0
  | _, Gt => 2
  | _, _ => 1
  end.

(** "temperature is present, numeric, and >= 99.6" *)
Definition has_fever (temperature : value) : bool :=
  match temperature with
  | VNum t => num_le (Fin 99.6) t
  | _ => false
  end.

(** "missing/null/empty or not numeric" *)
Definition not_numeric (v : value) : bool :=
  match v with
  | VNum _ => false
  | _ => true
  end.

(** A half of a blood-pressure string that is a number: not empty, and
    read as a number by [Number]. *)
Definition numeric_half (s : string) : bool :=
  negb (String.eqb s "") && negb (Number_isNaN (Number (VStr s))).

(** "missing/null/empty, not a string, or does not split on '/' into
    exactly two numeric halves" *)
Definition bp_malformed (v : value) : bool :=
  match v with
  | VStr s =>
      match split "/" s with
      | [a; b] => negb (numeric_half a && numeric_half b)
      | _ => true
      end
  | _ => true
  end.

(** PageEnvelope (section 3): the records of a page, the total the server
    declares, and whether another page exists. *)
Record page_envelope : Type := {
  records : list patient;
  total : number;
  hasMore : bool
}.

(** The envelope a response carries: its status is 2xx and its body is
    [{ data: [...], pagination: { total: number, hasNext: boolean } }]. *)
Definition envelope_of (res : response) : option page_envelope :=
  if ok res then
    match json res with
    | Some body =>
        match Json.data body, Json.pagination body with
        | Some d, Some pg =>
            match Json.total pg, Json.hasNext pg with
            | VNum t, VBool b =>
                Some {| records := d; total := t; hasMore := b |}
            | _, _ => None
            end
        | _, _ => None
        end
    | None => None
    end
  else None.

(** "Total risk = sum of the three signal scores", an invalid signal
    contributing 0, for the scorers of [index.js]. *)
Definition total_risk (p : patient) : Z :=
  contribution (Index.bpScore (blood_pressure p))
  + contribution (tempScore (temperature p))
  + contribution (Index.ageScore (age p)).

End Spec.

(* ================================================================== *)
(** ** Auxiliary definitions for the statements *)

(** The loop body of [index.js] on the three arrays alone: they depend on
    the arrays before and on the record only. *)
Definition classify_report (r : report) (p : patient) : report :=
  Index.payload
    (Index.classify
       {| Index.page := 1; Index.processedCount := 0;
          Index.totalExpected := VNull; Index.hasNext := VBool true;
          Index.payload := r; Index.console := [] |} p).

(** What one turn of the pagination loop does to the variables of [run]
    when the page is such an envelope: request, capture of the total on a
    null [totalExpected], classification, next page. *)
Definition page_step (st : Index.run_state) (e : Spec.page_envelope)
  : Index.run_state :=
  let st := Index.log st (Fetch (Index.page st) Index.limit) in
  let st :=
    if strict_eq (Index.totalExpected st) VNull
    then Index.set_totalExpected st (VNum (Spec.total e))
    else st in
  let st := Index.log st (LogPage (Index.page st) (length (Spec.records e))) in
  let st := Index.classify_all st (Spec.records e) in
  Index.advance st (VBool (Spec.hasMore e)).

(** A page as [run] reads it from a 2xx response: the records of [data]
    and the two fields of [pagination], whatever their types. *)
Record page_read : Type := {
  read_data : list patient;
  read_total : value;
  read_hasNext : value
}.

(** The page a response carries: its status is 2xx and its body holds an
    array [data] and an object [pagination]. *)
Definition page_of (res : response) : option page_read :=
  if ok res then
    match json res with
    | Some body =>
        match Json.data body, Json.pagination body with
        | Some d, Some pg =>
            Some {| read_data := d; read_total := Json.total pg;
                    read_hasNext := Json.hasNext pg |}
        | _, _ => None
        end
    | None => None
    end
  else None.

(** What one turn of the pagination loop does to the variables of [run]
    on such a page. *)
Definition turn (st : Index.run_state) (p : page_read) : Index.run_state :=
  let st := Index.log st (Fetch (Index.page st) Index.limit) in
  let st :=
    if strict_eq (Index.totalExpected st) VNull
    then Index.set_totalExpected st (read_total p)
    else st in
  let st := Index.log st (LogPage (Index.page st) (length (read_data p))) in
  let st := Index.classify_all st (read_data p) in
  Index.advance st (read_hasNext p).

(** [totalExpected] after pages declaring these totals, starting from
    [null]: the first of them that is not [null]. *)
Fixpoint captured_total (totals : list value) : value :=
  match totals with
  | [] => VNull
  | t :: totals' => if strict_eq t VNull then captured_total totals' else t
  end.

Definition is_warning (e : event) : bool :=
  match e with WarnMismatch _ _ => true | _ => false end.

Definition is_fetch (e : event) : bool :=
  match e with Fetch _ _ => true | _ => false end.

(** A 200 response carrying the given page. *)
Definition page_response (d : list patient) (total hasNext : value)
  : response :=
  {| status := 200; retry_after := None;
     json := Some {| Json.data := Some d;
                     Json.pagination :=
                       Some {| Json.total := total;
                               Json.hasNext := hasNext |} |} |}.

(** A patient with a stage-1 blood pressure, a low fever and an age in the
    middle band: total risk 4. *)
Definition patient_at_4 : patient :=
  {| patient_id := VStr "P4"; blood_pressure := VStr "130/79";
     temperature := VNum (Fin 99.6); age := VNum (Fin 40) |}.

(** The same with a normal temperature: total risk 3. *)
Definition patient_at_3 : patient :=
  {| patient_id := VStr "P3"; blood_pressure := VStr "130/79";
     temperature := VNum (Fin 99.5); age := VNum (Fin 40) |}.

(** The console lines of a trace of [index.js], without the requests
    that the embedding of [index.js] records among them. *)
Definition console_only (out : list event) : list event :=
  filter (fun e => negb (is_fetch e)) out.

(** The variables of [run] with the requests taken out of the console. *)
Definition without_requests (st : Index.run_state) : Index.run_state :=
  {| Index.page := Index.page st;
     Index.processedCount := Index.processedCount st;
     Index.totalExpected := Index.totalExpected st;
     Index.hasNext := Index.hasNext st;
     Index.payload := Index.payload st;
     Index.console := console_only (Index.console st) |}.

(** An outcome of [run] of [index.js] as an outcome of [run] of part_001
    with the given network trace. *)
Definition as_Part001 (o : Index.outcome) (net : list (Z * Part001.io))
  : Part001.run_outcome :=
  match o with
  | Index.Completed payload console =>
      Part001.Completed payload (console_only console) net
  | Index.Thrown e console =>
      Part001.Thrown (inr e) (console_only console) net
  | Index.Awaiting console => Part001.Awaiting (console_only console) net
  end.

(** The invocation of [fetchWithRetry] that meets this script resolves
    with this response. *)
Definition delivers (script : list Part001.attempt_env) (res : response)
  : Prop :=
  fst (fst (Part001.fetchWithRetry_default script))
  = Some (Part001.Fulfilled res).

(** The console at the end of a run of [index.js]. *)
Definition console_of (o : Index.outcome) : list event :=
  match o with
  | Index.Completed _ console | Index.Thrown _ console
  | Index.Awaiting console => console
  end.

(** What [n] successive invocations of [fetchWithRetry] do, for the pages
    from [page] on, one script each: the requests, the "Retrying" warnings
    and the sleeps of each invocation, under the number of its page.  An
    invocation that finds no script issues its request and nothing else. *)
Fixpoint invocations (n : nat) (page : Z)
         (outside : list (list Part001.attempt_env))
  : list (Z * Part001.io) :=
  match n with
  | O => []
  | S n' =>
      match outside with
      | [] => [(page, Part001.Request)]
      | script :: outside' =>
          map (pair page) (snd (fst (Part001.fetchWithRetry_default script)))
          ++ invocations n' (page + 1) outside'
      end
  end.

(** A call of [fetch] that does not bring a 2xx response, and the error
    [run] of [index.js] then throws on the given page. *)
Definition failed_fetch (f : fetch_outcome) : bool :=
  match f with
  | Resolved res => negb (ok res)
  | Rejected _ => true
  end.

Definition failure_on (page : Z) (f : fetch_outcome) : Index.error :=
  match f with
  | Resolved res => Index.PatientApiError page (status res)
  | Rejected reason => Index.FetchRejected reason
  end.

Definition is_payload_log (e : event) : bool :=
  match e with LogPayload _ => true | _ => false end.

(* ================================================================== *)
(** ** The order on numbers *)

Lemma num_lt_Fin (a b : Q) : num_lt (Fin a) (Fin b) = true <-> (a < b)%Q.
Proof.
  unfold num_lt; simpl. rewrite Qlt_alt.
  destruct (a ?= b)%Q; split; intro H; congruence.
Qed.

Lemma num_le_Fin (a b : Q) : num_le (Fin a) (Fin b) = true <-> (a <= b)%Q.
Proof.
  unfold num_le; simpl. rewrite Qle_alt.
  destruct (a ?= b)%Q; split; intro H; congruence.
Qed.

Lemma num_gt_lt (x y : number) : num_gt x y = num_lt y x.
Proof.
  destruct x as [| |a|], y as [| |b|]; try reflexivity.
  unfold num_gt, num_lt; simpl.
  rewrite <- (Qcompare_antisym a b). destruct (a ?= b)%Q; reflexivity.
Qed.

Lemma num_ge_le (x y : number) : num_ge x y = num_le y x.
Proof.
  destruct x as [| |a|], y as [| |b|]; try reflexivity.
  unfold num_ge, num_le; simpl.
  rewrite <- (Qcompare_antisym a b). destruct (a ?= b)%Q; reflexivity.
Qed.

Lemma num_lt_Fin_false (a b : Q) :
  num_lt (Fin a) (Fin b) = false <-> (b <= a)%Q.
Proof.
  rewrite <- not_true_iff_false, num_lt_Fin. split; intro H; lra.
Qed.

Lemma num_le_Fin_false (a b : Q) :
  num_le (Fin a) (Fin b) = false <-> (b < a)%Q.
Proof.
  rewrite <- not_true_iff_false, num_le_Fin. split; intro H; lra.
Qed.

(** Turns the outcomes of [Qcompare] in the context into order facts. *)
Ltac compare_facts :=
  repeat match goal with
         | H : (_ ?= _)%Q = Lt |- _ => apply Qlt_alt in H
         | H : (_ ?= _)%Q = Eq |- _ => apply Qeq_alt in H
         | H : (_ ?= _)%Q = Gt |- _ => apply Qgt_alt in H
         end.

(* ================================================================== *)
(** ** The scorers of index.js *)

(** [isInvalid] holds of [null], [undefined] and the empty string only. *)
Lemma isInvalid_iff (v : value) :
  isInvalid v = true <-> v = VNull \/ v = VUndefined \/ v = VStr "".
Proof.
  unfold isInvalid. destruct v as [| |b|n|s|o]; simpl;
    try (split; [discriminate | intros [H|[H|H]]; discriminate]);
    try (split; auto; fail).
  rewrite String.eqb_eq. split.
  - intros ->. auto.
  - intros [H|[H|H]]; congruence.
Qed.

(** The age scorer on every value: a value that is not a number scores 0
    and is flagged; a finite number scores by its band and is not. *)
Lemma Index_ageScore_table :
  (forall v, Spec.not_numeric v = true ->
             Index.ageScore v = {| score := 0; invalid := true |})
  /\ (forall a : Q,
         Index.ageScore (VNum (Fin a))
         = {| score := Spec.age_band a; invalid := false |})
  /\ (forall a : Q,
         ((a < 40)%Q -> Spec.age_band a = 0)
         /\ ((40 <= a)%Q -> (a <= 65)%Q -> Spec.age_band a = 1)
         /\ ((65 < a)%Q -> Spec.age_band a = 2)).
Proof.
  split; [|split].
  - intros v Hv. unfold Index.ageScore.
    destruct v; try discriminate; simpl;
      try reflexivity; rewrite orb_true_r; reflexivity.
  - intro a. unfold Index.ageScore, Spec.age_band, js_lt, js_le, js_ge, js_gt.
    simpl. rewrite num_ge_le, num_gt_lt.
    unfold num_lt, num_le; simpl.
    rewrite <- (Qcompare_antisym a 40), <- (Qcompare_antisym a 65).
    destruct (a ?= 40)%Q eqn:E40; destruct (a ?= 65)%Q eqn:E65;
      simpl; try reflexivity.
  - intro a. unfold Spec.age_band.
    destruct (a ?= 40)%Q eqn:E40; destruct (a ?= 65)%Q eqn:E65;
      compare_facts; repeat split; intros; try reflexivity; lra.
Qed.

(** Splits every comparison between two finite numbers in the goal into its
    two outcomes, each recorded as a rational fact. *)
Ltac split_orders :=
  repeat match goal with
         | |- context [num_lt (Fin ?a) (Fin ?b)] =>
             let H := fresh "O" in
             destruct (num_lt (Fin a) (Fin b)) eqn:H;
             [apply num_lt_Fin in H | apply num_lt_Fin_false in H]
         | |- context [num_le (Fin ?a) (Fin ?b)] =>
             let H := fresh "O" in
             destruct (num_le (Fin a) (Fin b)) eqn:H;
             [apply num_le_Fin in H | apply num_le_Fin_false in H]
         end.

(** The blood-pressure scorer of [index.js] on a value that parses into two
    numbers: the score is the table's, a function of the two numbers alone,
    and the flag is not set. *)
Lemma Index_bpScore_table (v : value) (S D : number) :
  parseBP v = Some {| sys := VNum S; dia := VNum D |} ->
  Index.bpScore v = {| score := Spec.bp_table S D; invalid := false |}.
Proof.
  intro H. unfold Index.bpScore. rewrite H. simpl.
  unfold js_lt, js_le, js_ge, Spec.bp_table. simpl ToNumber.
  rewrite !num_ge_le.
  repeat match goal with
         | |- context [if ?c then _ else _] => destruct c
         end; reflexivity.
Qed.

(** The rows of the table on finite readings.  The first three rows hold
    as they stand; the fourth is reached only when the third does not
    apply; what no row covers scores 0. *)
Lemma bp_table_rows (a b : Q) :
  let t := Spec.bp_table (Fin a) (Fin b) in
  let row3 := ((130 <= a /\ a <= 139) \/ (80 <= b /\ b <= 89))%Q in
  let row4 := (140 <= a \/ 90 <= b)%Q in
  ((a < 120)%Q -> (b < 80)%Q -> t = 0)
  /\ ((120 <= a)%Q -> (a <= 129)%Q -> (b < 80)%Q -> t = 1)
  /\ (row3 -> t = 2)
  /\ (~ row3 -> row4 -> t = 3)
  /\ ((129 < a)%Q -> (a < 130)%Q -> (b < 80)%Q -> t = 0).
Proof.
  unfold Spec.bp_table. cbv zeta.
  split_orders; simpl; repeat split; intros;
    try reflexivity; try lra; exfalso;
    repeat match goal with
           | H : _ \/ _ |- _ => destruct H
           | H : _ /\ _ |- _ => destruct H
           | H : ~ _ |- _ => apply H; clear H
           end; lra.
Qed.

(** A flagged result always carries score 0, for each scorer. *)
Lemma tempScore_invalid_zero (v : value) :
  invalid (tempScore v) = true -> score (tempScore v) = 0.
Proof.
  unfold tempScore.
  repeat match goal with
         | |- context [if ?c then _ else _] => destruct c
         end; simpl; congruence.
Qed.

Lemma Index_ageScore_invalid_zero (v : value) :
  invalid (Index.ageScore v) = true -> score (Index.ageScore v) = 0.
Proof.
  unfold Index.ageScore.
  repeat match goal with
         | |- context [if ?c then _ else _] => destruct c
         end; simpl; congruence.
Qed.

Lemma Index_bpScore_invalid_zero (v : value) :
  invalid (Index.bpScore v) = true -> score (Index.bpScore v) = 0.
Proof.
  unfold Index.bpScore. destruct (parseBP v); [|reflexivity].
  repeat match goal with
         | |- context [if ?c then _ else _] => destruct c
         end; simpl; congruence.
Qed.

Lemma contribution_score (r : score_result) :
  (invalid r = true -> score r = 0) -> Spec.contribution r = score r.
Proof.
  unfold Spec.contribution. destruct (invalid r); intro H; auto.
  symmetry; auto.
Qed.

(** The sum computed by the loop is the specification's total risk. *)
Lemma Index_totalRisk_spec (p : patient) :
  Index.totalRisk p = Spec.total_risk p.
Proof.
  unfold Index.totalRisk, Spec.total_risk.
  rewrite (contribution_score _ (Index_bpScore_invalid_zero _)),
    (contribution_score _ (tempScore_invalid_zero _)),
    (contribution_score _ (Index_ageScore_invalid_zero _)).
  lia.
Qed.

Lemma Index_classify_payload (st : Index.run_state) (p : patient) :
  Index.payload (Index.classify st p)
  = classify_report (Index.payload st) p.
Proof. reflexivity. Qed.

Lemma Index_classify_all_payload (data : list patient) :
  forall st,
    Index.payload (Index.classify_all st data)
    = fold_left classify_report data (Index.payload st).
Proof.
  unfold Index.classify_all.
  induction data as [|p data IH]; intro st; simpl; [reflexivity|].
  rewrite IH, Index_classify_payload. reflexivity.
Qed.

Lemma Index_high_risk_step (r : report) (p : patient) :
  high_risk_patients (classify_report r p)
  = if 4 <=? Spec.total_risk p
    then high_risk_patients r ++ [patient_id p]
    else high_risk_patients r.
Proof.
  rewrite <- Index_totalRisk_spec, <- Z.geb_leb. reflexivity.
Qed.

(** C1. In the classification loop of [index.js] a patient's id is appended
    to [high_risk_patients] exactly when the total risk, the sum of the
    three signal scores with an invalid signal contributing 0, is at least
    4: for one record, and hence for a whole page, whose appended ids are
    those of the records reaching 4, in order. *)
Theorem Index_high_risk_iff_total_risk_at_least_4 :
  (forall (st : Index.run_state) (p : patient),
      high_risk_patients (Index.payload (Index.classify st p))
      = if 4 <=? Spec.total_risk p
        then high_risk_patients (Index.payload st) ++ [patient_id p]
        else high_risk_patients (Index.payload st))
  /\ (forall (st : Index.run_state) (data : list patient),
         high_risk_patients (Index.payload (Index.classify_all st data))
         = high_risk_patients (Index.payload st)
           ++ map patient_id
                (filter (fun p => 4 <=? Spec.total_risk p) data)).
Proof.
  split.
  - intros st p. rewrite Index_classify_payload. apply Index_high_risk_step.
  - intros st data. rewrite Index_classify_all_payload.
    generalize (Index.payload st) as r.
    induction data as [|p data IH]; intro r; simpl.
    + rewrite app_nil_r. reflexivity.
    + rewrite IH, Index_high_risk_step.
      destruct (4 <=? Spec.total_risk p); simpl; [|reflexivity].
      rewrite <- app_assoc. reflexivity.
Qed.

(** C10. A temperature that is the number NaN scores 0 without the invalid
    flag ([tempScore] is the same in [index.js] and in part_001); in the
    loop of [index.js] such a record is never added to [fever_patients],
    and it is added to [data_quality_issues] exactly when its blood
    pressure or its age is flagged. *)
Theorem NaN_temperature_scores_0_unflagged :
  tempScore (VNum NaN) = {| score := 0; invalid := false |}
  /\ forall (st : Index.run_state) (id bp age : value),
      let p := {| patient_id := id; blood_pressure := bp;
                  temperature := VNum NaN; age := age |} in
      fever_patients (Index.payload (Index.classify st p))
      = fever_patients (Index.payload st)
      /\ data_quality_issues (Index.payload (Index.classify st p))
         = if invalid (Index.bpScore bp) || invalid (Index.ageScore age)
           then data_quality_issues (Index.payload st) ++ [id]
           else data_quality_issues (Index.payload st).
Proof.
  split; [reflexivity|].
  intros st id bp age p. split; [reflexivity|].
  unfold Index.classify; simpl.
  rewrite orb_false_r. reflexivity.
Qed.

(* ================================================================== *)
(** ** Fever and data-quality routing in index.js *)

Lemma Index_fever_test (t : value) :
  String.eqb (typeof t) "number" && js_ge t (Fin 99.6) = Spec.has_fever t.
Proof.
  destruct t as [| |b|n|s|o]; try reflexivity.
  unfold js_ge; simpl. apply num_ge_le.
Qed.

Lemma Index_fever_step (r : report) (p : patient) :
  fever_patients (classify_report r p)
  = if Spec.has_fever (temperature p)
    then fever_patients r ++ [patient_id p]
    else fever_patients r.
Proof.
  unfold classify_report, Index.classify; simpl.
  rewrite Index_fever_test. reflexivity.
Qed.

(** The fever list of [index.js]: the ids appended are those of the records
    whose temperature is a number at least 99.6, whatever the flags of the
    three signals. *)
Lemma Index_fever_iff_numeric_at_least_99_6 :
  forall (st : Index.run_state) (data : list patient),
    fever_patients (Index.payload (Index.classify_all st data))
    = fever_patients (Index.payload st)
      ++ map patient_id
           (filter (fun p => Spec.has_fever (temperature p)) data).
Proof.
  intros st data. rewrite Index_classify_all_payload.
  generalize (Index.payload st) as r.
  induction data as [|p data IH]; intro r; simpl.
  - rewrite app_nil_r. reflexivity.
  - rewrite IH, Index_fever_step.
    destruct (Spec.has_fever (temperature p)); simpl; [|reflexivity].
    rewrite <- app_assoc. reflexivity.
Qed.

Lemma Index_data_quality_step (r : report) (p : patient) :
  data_quality_issues (classify_report r p)
  = if invalid (Index.bpScore (blood_pressure p))
       || invalid (tempScore (temperature p))
       || invalid (Index.ageScore (age p))
    then data_quality_issues r ++ [patient_id p]
    else data_quality_issues r.
Proof. reflexivity. Qed.

(** What the scorers of [index.js] flag: a temperature or an age that is
    not a number; a blood pressure that is not a string, or is the empty
    string, or whose first or second part reads as NaN.  Each such field
    scores 0. *)
Lemma Index_flagged_fields :
  (forall v, Spec.not_numeric v = true ->
             tempScore v = {| score := 0; invalid := true |})
  /\ (forall v, Spec.not_numeric v = true ->
                Index.ageScore v = {| score := 0; invalid := true |})
  /\ (forall v, (forall s, v <> VStr s) ->
                Index.bpScore v = {| score := 0; invalid := true |})
  /\ Index.bpScore (VStr "") = {| score := 0; invalid := true |}
  /\ (forall s, Number_isNaN (element 0 (split_map_Number (VStr s))) = true
                \/ Number_isNaN (element 1 (split_map_Number (VStr s))) = true
                -> Index.bpScore (VStr s) = {| score := 0; invalid := true |}).
Proof.
  repeat split.
  - intros v Hv. unfold tempScore.
    destruct v; try discriminate; simpl;
      try reflexivity; rewrite orb_true_r; reflexivity.
  - apply Index_ageScore_table.
  - intros v Hv. unfold Index.bpScore, parseBP.
    destruct v; simpl; try reflexivity.
    exfalso. eapply Hv. reflexivity.
  - intros s H. unfold Index.bpScore, parseBP.
    destruct (isInvalid (VStr s) || negb (typeof (VStr s) =? "string")%string);
      [reflexivity|].
    cbv zeta.
    destruct H as [H|H]; rewrite H; [|rewrite orb_true_r]; reflexivity.
Qed.

(* ================================================================== *)
(** ** [Number] on strings, by example *)

Lemma StringToNumber_samples :
  map StringToNumber
      ["119"; ""; "  "; "1e3"; "5."; "0x1F"; "0b101"; "Infinity";
       "-Infinity"]%string
  = [Fin 119; Fin 0; Fin 0; Fin 1000; Fin 5; Fin 31; Fin 5; PosInf; NegInf]
  /\ map (fun s => num_eq (StringToNumber s) (Fin 98.6))
         [" 98.6 "; "+98.6"; "9.86e1"; "986e-1"; "98.60"]%string
     = [true; true; true; true; true]
  /\ map StringToNumber
         ["N"; "A"; "."; "1e"; "12 3"; "+-1"; "-0x10"; "0x"; "1_000";
          "infinity"; "120mmHg"]%string
     = repeat NaN 11.
Proof. repeat split. Qed.

(* ================================================================== *)
(** ** What [parseBP] accepts *)

Lemma split_nonempty (sep : ascii) (s : string) :
  exists a rest, split sep s = a :: rest.
Proof.
  induction s as [|c s [a [rest IH]]]; simpl.
  - eauto.
  - destruct (Ascii.eqb c sep); [eauto|]. rewrite IH. eauto.
Qed.

Lemma Number_isNaN_Number (s : string) :
  Number_isNaN (Number (VStr s)) = true <-> StringToNumber s = NaN.
Proof.
  unfold Number; simpl. destruct (StringToNumber s); split; congruence.
Qed.

(** [parseBP] returns [null] exactly for a value that is not a string, for
    the empty string, and for a string whose first part, or whose second
    part when there is one, reads as NaN.  Parts after the second are not
    looked at, and a missing second part is not NaN. *)
Lemma parseBP_null_iff (v : value) :
  parseBP v = None <->
  (forall s, v <> VStr s)
  \/ v = VStr ""
  \/ exists s a rest,
       v = VStr s /\ split "/" s = a :: rest
       /\ (StringToNumber a = NaN
           \/ exists b rest', rest = b :: rest' /\ StringToNumber b = NaN).
Proof.
  destruct v as [| |b|n|s|o];
    try (split; [intros _; left; intros s; discriminate | reflexivity]).
  destruct (split_nonempty "/" s) as [a [rest Hs]].
  unfold parseBP.
  change (isInvalid (VStr s)) with (String.eqb s "").
  simpl typeof. simpl negb.
  rewrite orb_false_r. unfold split_map_Number. rewrite Hs.
  destruct (String.eqb_spec s "") as [->|Hne].
  - split; auto.
  - cbv zeta.
    change (element 0 (map (fun part => Number (VStr part)) (a :: rest)))
      with (Number (VStr a)).
    destruct rest as [|b rest'].
    + change (element 1 (map (fun part => Number (VStr part)) [a]))
        with VUndefined.
      change (Number_isNaN VUndefined) with false. rewrite orb_false_r.
      destruct (Number_isNaN (Number (VStr a))) eqn:Ha.
      * split; [intros _|reflexivity].
        right; right. exists s, a, []. repeat split; auto.
        left. apply Number_isNaN_Number, Ha.
      * split; [discriminate|].
        intros [H|[H|[s0 [a0 [r0 [E [Hs0 H]]]]]]].
        -- exfalso. eapply H. reflexivity.
        -- congruence.
        -- injection E as <-. rewrite Hs in Hs0. injection Hs0 as <- <-.
           destruct H as [H|[b [r' [H _]]]]; [|discriminate].
           apply Number_isNaN_Number in H. congruence.
    + change (element 1 (map (fun part => Number (VStr part))
                           (a :: b :: rest')))
        with (Number (VStr b)).
      destruct (Number_isNaN (Number (VStr a))) eqn:Ha;
        [|destruct (Number_isNaN (Number (VStr b))) eqn:Hb]; cbn [orb].
      * split; [intros _|reflexivity].
        right; right. exists s, a, (b :: rest'). repeat split; auto.
        left. apply Number_isNaN_Number, Ha.
      * split; [intros _|reflexivity].
        right; right. exists s, a, (b :: rest'). repeat split; auto.
        right. exists b, rest'. split; auto.
        apply Number_isNaN_Number, Hb.
      * split; [discriminate|].
        intros [H|[H|[s0 [a0 [r0 [E [Hs0 H]]]]]]].
        -- exfalso. eapply H. reflexivity.
        -- congruence.
        -- injection E as <-. rewrite Hs in Hs0. injection Hs0 as <- <-.
           destruct H as [H|[b0 [r' [H1 H2]]]].
           ++ apply Number_isNaN_Number in H. congruence.
           ++ injection H1 as <- <-.
              apply Number_isNaN_Number in H2. congruence.
Qed.

(** Whatever [parseBP] rejects is malformed in the specification's sense;
    the converse is what fails. *)
Lemma parseBP_null_is_malformed (v : value) :
  parseBP v = None -> Spec.bp_malformed v = true.
Proof.
  intro H. apply parseBP_null_iff in H.
  destruct H as [H|[->|[s [a [rest [-> [Hs H]]]]]]].
  - destruct v; try reflexivity. exfalso. eapply H. reflexivity.
  - reflexivity.
  - unfold Spec.bp_malformed. rewrite Hs.
    destruct rest as [|b [|c rest']]; try reflexivity.
    unfold Spec.numeric_half.
    destruct H as [Ha|[b0 [r' [E Hb]]]].
    + apply Number_isNaN_Number in Ha. rewrite Ha.
      rewrite andb_false_r. reflexivity.
    + injection E as <- <-. apply Number_isNaN_Number in Hb. rewrite Hb.
      rewrite !andb_false_r. reflexivity.
Qed.

(** On a string with exactly two parts, neither empty, the code and the
    specification agree. *)
Lemma parseBP_two_nonempty_parts (s a b : string) :
  split "/" s = [a; b] -> a <> ""%string -> b <> ""%string ->
  (parseBP (VStr s) = None <-> Spec.bp_malformed (VStr s) = true).
Proof.
  intros Hs Ha Hb. split; [apply parseBP_null_is_malformed|].
  unfold Spec.bp_malformed, Spec.numeric_half. rewrite Hs.
  apply String.eqb_neq in Ha, Hb. rewrite Ha, Hb.
  change (negb false) with true. rewrite !andb_true_l.
  intro H. apply parseBP_null_iff. right; right.
  exists s, a, [b]. repeat split; auto.
  apply negb_true_iff, andb_false_iff in H.
  destruct H as [H|H]; apply negb_false_iff, Number_isNaN_Number in H.
  - left. exact H.
  - right. exists b, []. split; auto.
Qed.

Lemma parseBP_two_nonempty_parts_witness :
  (split "/" "N/A" = ["N"; "A"]%string
   /\ "N"%string <> ""%string /\ "A"%string <> ""%string)
  /\ (parseBP (VStr "N/A") = None
      <-> Spec.bp_malformed (VStr "N/A") = true).
Proof.
  split; [repeat split; discriminate|].
  apply (parseBP_two_nonempty_parts "N/A" "N" "A");
    [reflexivity | discriminate | discriminate].
Defined.

(* ================================================================== *)
(** ** The scorers at the stated boundaries *)

(** [index.js] (and part_001, whose scorers are the same) at the seven
    blood-pressure boundaries and the four age boundaries. *)
Lemma Index_scores_at_boundaries :
  map (fun s => Index.bpScore (VStr s))
      ["119/79"; "120/79"; "129/79"; "130/79"; "139/89"; "140/79";
       "115/90"]%string
  = map (fun n => {| score := n; invalid := false |}) [0; 1; 1; 2; 2; 3; 3]
  /\ map (fun a => Index.ageScore (VNum (Fin a))) [39; 40; 65; 66]%Q
     = map (fun n => {| score := n; invalid := false |}) [0; 1; 1; 2]
  /\ map (fun t => tempScore (VNum (Fin t))) [99.5; 99.6; 100.9; 101]%Q
     = map (fun n => {| score := n; invalid := false |}) [0; 1; 1; 2].
Proof. repeat split. Qed.

Lemma Part001_scorers_same_as_Index :
  Part001.bpScore = Index.bpScore /\ Part001.ageScore = Index.ageScore.
Proof. split; reflexivity. Qed.

(** C2. The blood-pressure scorer of part_000 at the seven boundaries of
    section 8: it returns 1, 2, 2, 3, 3, 4, 4 where the five-branch table
    gives 0, 1, 1, 2, 2, 3, 3 (the scorer of [index.js] and part_001
    returns the latter, see [Index_scores_at_boundaries] and
    [Index_bpScore_table]). *)
Theorem Part000_bpScore_at_boundaries :
  map (fun s => Part000.bpScore (VStr s))
      ["119/79"; "120/79"; "129/79"; "130/79"; "139/89"; "140/79";
       "115/90"]%string
  = map (fun n => {| score := n; invalid := false |}) [1; 2; 2; 3; 3; 4; 4]
  /\ map (fun sd => Spec.bp_table (Fin (fst sd)) (Fin (snd sd)))
         [(119, 79); (120, 79); (129, 79); (130, 79); (139, 89); (140, 79);
          (115, 90)]%Q
     = [0; 1; 1; 2; 2; 3; 3].
Proof. split; reflexivity. Qed.

(** C6. The age scorer of part_000 at the four boundaries of section 8:
    it returns 1, 1, 1, 2, so age 39 scores 1 where the age bands give 0
    (the scorer of [index.js] returns 0, 1, 1, 2, see
    [Index_ageScore_table]). *)
Theorem Part000_ageScore_at_boundaries :
  map (fun a => Part000.ageScore (VNum (Fin a))) [39; 40; 65; 66]%Q
  = map (fun n => {| score := n; invalid := false |}) [1; 1; 1; 2]
  /\ map Spec.age_band [39; 40; 65; 66]%Q = [0; 1; 1; 2].
Proof. split; reflexivity. Qed.

(** C7. The loop of part_000 compares the raw temperature with 99.6
    without asking for a number: a record whose temperature is the string
    "101" is appended to [fever_patients], although its temperature is not
    numeric and is flagged by [tempScore].  The loop of [index.js] leaves
    the same record out. *)
Theorem Part000_fever_admits_a_string :
  let p := {| patient_id := VStr "P1"; blood_pressure := VStr "110/70";
              temperature := VStr "101"; age := VNum (Fin 30) |} in
  Spec.has_fever (temperature p) = false
  /\ invalid (tempScore (temperature p)) = true
  /\ fever_patients (Part000.classify Index.empty_report p) = [VStr "P1"]
  /\ fever_patients (classify_report Index.empty_report p) = [].
Proof. repeat split. Qed.

(** C5. [parseBP] accepts strings that do not split into exactly two
    numeric halves: "150/" is read as 150 over 0, "120" as 120 with no
    diastolic value, "120/80/90" as 120 over 80; none is flagged, and the
    first scores 3. *)
Theorem parseBP_accepts_malformed_strings :
  map Spec.bp_malformed [VStr "150/"; VStr "120"; VStr "120/80/90"]
  = [true; true; true]
  /\ map parseBP [VStr "150/"; VStr "120"; VStr "120/80/90"]
     = [Some {| sys := VNum (Fin 150); dia := VNum (Fin 0) |};
        Some {| sys := VNum (Fin 120); dia := VUndefined |};
        Some {| sys := VNum (Fin 120); dia := VNum (Fin 80) |}]
  /\ map Index.bpScore [VStr "150/"; VStr "120"; VStr "120/80/90"]
     = [{| score := 3; invalid := false |};
        {| score := 0; invalid := false |};
        {| score := 2; invalid := false |}].
Proof. repeat split. Qed.

(** C8. A record whose blood pressure is the malformed string "150/" gets
    a blood-pressure score of 3 without the invalid flag, and the loop of
    [index.js] does not add it to [data_quality_issues]. *)
Theorem Index_malformed_bp_not_routed :
  let p := {| patient_id := VStr "P1"; blood_pressure := VStr "150/";
              temperature := VNum (Fin 98.6); age := VNum (Fin 30) |} in
  Spec.bp_malformed (blood_pressure p) = true
  /\ Index.bpScore (blood_pressure p) = {| score := 3; invalid := false |}
  /\ data_quality_issues (classify_report Index.empty_report p) = [].
Proof. repeat split. Qed.

(* ================================================================== *)
(** ** fetchWithRetry (part_001) *)

Lemma requests_app (a b : list Part001.io) :
  Part001.requests (a ++ b) = (Part001.requests a + Part001.requests b)%nat.
Proof.
  unfold Part001.requests. rewrite filter_app, length_app. reflexivity.
Qed.

(** The [try] block issues exactly one request, the [catch] block none. *)
Lemma try_block_requests (w : Part001.attempt_env) (retries attempt : Z) :
  Part001.requests (snd (Part001.try_block w retries attempt)) = 1%nat.
Proof.
  unfold Part001.try_block.
  destruct (Part001.fetched w) as [res|reason]; [|reflexivity].
  destruct (ok res); [reflexivity|].
  destruct (Part001.retryable (status res)); [|reflexivity].
  destruct (attempt >? retries); reflexivity.
Qed.

Lemma catch_block_requests (err : Part001.exn) (retries attempt : Z) :
  Part001.requests (snd (Part001.catch_block err retries attempt)) = 0%nat.
Proof.
  unfold Part001.catch_block. destruct (attempt <=? retries); reflexivity.
Qed.

(** A retryable status is never a 2xx status. *)
Lemma retryable_not_ok (res : response) :
  Part001.retryable (status res) = true -> ok res = false.
Proof.
  unfold Part001.retryable, ok; simpl. rewrite !orb_true_iff, !Z.eqb_eq.
  intros [H|[H|[H|[H|H]]]]; try discriminate; rewrite H; reflexivity.
Qed.

(** One unfolding of [fetchWithRetry] on a retryable status. *)
Lemma fetchWithRetry_retryable
      (w : Part001.attempt_env) (net : list Part001.attempt_env)
      (retries attempt : Z) :
  Part001.answered_retryable w = true ->
  Part001.fetchWithRetry (w :: net) retries attempt
  = if attempt >? retries
    then (Some (Part001.RejectedWith
                  (Part001.FailedAfter retries (Part001.status_of w))),
          [Part001.Request], net)
    else let '(r, io3, rest) :=
           Part001.fetchWithRetry net retries (attempt + 1) in
         (r, snd (Part001.try_block w retries attempt) ++ io3, rest).
Proof.
  unfold Part001.answered_retryable, Part001.status_of.
  intro H. simpl. unfold Part001.try_block.
  destruct (Part001.fetched w) as [res|reason]; [|discriminate].
  rewrite (retryable_not_ok res H), H.
  destruct (attempt >? retries) eqn:E.
  - unfold Part001.catch_block.
    replace (attempt <=? retries) with false by (symmetry; lia).
    reflexivity.
  - simpl. destruct (Part001.fetchWithRetry net retries (attempt + 1))
      as [[r io3] rest]. reflexivity.
Qed.

(** One unfolding of [fetchWithRetry] on a status that is neither 2xx nor
    retryable: the error thrown in the [try] block lands in the [catch]
    block, which retries while the budget lasts. *)
Lemma fetchWithRetry_terminal
      (w : Part001.attempt_env) (net : list Part001.attempt_env)
      (retries attempt : Z) :
  Part001.answered_terminal w = true ->
  Part001.fetchWithRetry (w :: net) retries attempt
  = if attempt <=? retries
    then let '(r, io3, rest) :=
           Part001.fetchWithRetry net retries (attempt + 1) in
         (r, Part001.Request :: Part001.Sleep (Part001.backoff attempt)
               :: io3, rest)
    else (Some (Part001.RejectedWith
                  (Part001.NonRetryable (Part001.status_of w))),
          [Part001.Request], net).
Proof.
  unfold Part001.answered_terminal, Part001.status_of.
  intro H. simpl. unfold Part001.try_block.
  destruct (Part001.fetched w) as [res|reason]; [|discriminate].
  apply andb_true_iff in H. destruct H as [H1 H2].
  apply negb_true_iff in H1, H2. rewrite H1, H2.
  unfold Part001.catch_block.
  destruct (attempt <=? retries).
  - destruct (Part001.fetchWithRetry net retries (attempt + 1))
      as [[r io3] rest]. reflexivity.
  - reflexivity.
Qed.

(** A run of retryable statuses that ends on attempt [retries + 1] is
    rejected with "Failed after [retries] retries", carrying the last
    status; every answer of the run is requested once and what follows in
    the script is left unrequested. *)
Lemma fetchWithRetry_exhausts (ws : list Part001.attempt_env) :
  ws <> [] ->
  forallb Part001.answered_retryable ws = true ->
  forall (rest : list Part001.attempt_env) (retries attempt : Z),
    attempt + Z.of_nat (length ws) = retries + 2 ->
    exists io,
      Part001.fetchWithRetry (ws ++ rest) retries attempt
      = (Some (Part001.RejectedWith
                 (Part001.FailedAfter retries
                    (last (map Part001.status_of ws) 0))),
         io, rest)
      /\ Part001.requests io = length ws.
Proof.
  induction ws as [|w ws IH]; [congruence|].
  intros _ Hall rest retries attempt Hlen.
  simpl in Hall. apply andb_true_iff in Hall. destruct Hall as [Hw Hws].
  rewrite <- app_comm_cons, (fetchWithRetry_retryable _ _ _ _ Hw).
  destruct ws as [|w' ws'].
  - simpl in Hlen.
    replace (attempt >? retries) with true by (symmetry; lia).
    exists [Part001.Request]. split; reflexivity.
  - replace (attempt >? retries) with false
      by (symmetry; simpl length in Hlen; lia).
    destruct (IH ltac:(discriminate) Hws rest retries (attempt + 1))
      as [io3 [E R]].
    { simpl length in *. lia. }
    rewrite E.
    exists (snd (Part001.try_block w retries attempt) ++ io3). split.
    + reflexivity.
    + rewrite requests_app, try_block_requests, R. reflexivity.
Qed.

(** Whatever the outside answers, an invocation issues at most
    [retries + 2 - attempt] requests (and always one). *)
Lemma fetchWithRetry_request_bound (net : list Part001.attempt_env) :
  forall retries attempt : Z,
    (Part001.requests (snd (fst (Part001.fetchWithRetry net retries attempt)))
     <= S (Z.to_nat (retries + 1 - attempt)))%nat.
Proof.
  induction net as [|w net IH]; intros retries attempt.
  - simpl. unfold Part001.requests; simpl. lia.
  - simpl.
    pose proof (try_block_requests w retries attempt) as R1.
    assert (HR : fst (Part001.try_block w retries attempt) = Part001.Retry
                 -> attempt <= retries).
    { unfold Part001.try_block.
      destruct (Part001.fetched w) as [res|reason]; [|discriminate].
      destruct (ok res); [discriminate|].
      destruct (Part001.retryable (status res)); [|discriminate].
      destruct (attempt >? retries) eqn:E; [discriminate|]. intros _. lia. }
    destruct (Part001.try_block w retries attempt) as [c io1].
    simpl in R1, HR. specialize (IH retries (attempt + 1)).
    destruct (Part001.fetchWithRetry net retries (attempt + 1))
      as [[r io3] rest]. simpl in IH.
    destruct c as [res| |err].
    + simpl. rewrite requests_app, R1. unfold Part001.requests; simpl. lia.
    + simpl. rewrite requests_app, R1. specialize (HR eq_refl).
      change (Part001.requests ([] ++ io3)) with (Part001.requests io3).
      lia.
    + unfold Part001.catch_block.
      destruct (attempt <=? retries) eqn:E; simpl.
      * rewrite requests_app, R1.
        change (Part001.requests (Part001.Sleep (Part001.backoff attempt)
                                    :: io3))
          with (Part001.requests io3).
        lia.
      * rewrite requests_app, R1. unfold Part001.requests; simpl. lia.
Qed.

(** C4. With the default budget ([retries = 5], first attempt 1), six
    consecutive answers with a retryable status make [fetchWithRetry]
    reject with "Failed after 5 retries" carrying the status of the sixth
    answer; exactly six requests are issued, and whatever the outside would
    answer next is never requested. *)
Theorem Part001_six_retryable_statuses_exhaust_the_budget :
  forall ws rest : list Part001.attempt_env,
    length ws = 6%nat ->
    forallb Part001.answered_retryable ws = true ->
    exists io,
      Part001.fetchWithRetry_default (ws ++ rest)
      = (Some (Part001.RejectedWith
                 (Part001.FailedAfter 5
                    (last (map Part001.status_of ws) 0))),
         io, rest)
      /\ Part001.requests io = 6%nat.
Proof.
  intros ws rest Hlen Hall.
  destruct (fetchWithRetry_exhausts ws) with (rest := rest)
    (retries := 5) (attempt := 1) as [io [E R]].
  - intros ->. discriminate.
  - exact Hall.
  - rewrite Hlen. reflexivity.
  - exists io. split; [exact E|]. rewrite R. exact Hlen.
Qed.

(** Six answers of status 500, then a 200 that is never asked for. *)
Lemma Part001_six_500s_witness :
  let ws := repeat (Part001.answered 500 None 0) 6 in
  let rest := [Part001.answered 200 None 0] in
  (length ws = 6%nat /\ forallb Part001.answered_retryable ws = true)
  /\ exists io,
      Part001.fetchWithRetry_default (ws ++ rest)
      = (Some (Part001.RejectedWith (Part001.FailedAfter 5 500)), io, rest)
      /\ Part001.requests io = 6%nat.
Proof.
  split; [split; reflexivity|].
  exact (Part001_six_retryable_statuses_exhaust_the_budget
           (repeat (Part001.answered 500 None 0) 6)
           [Part001.answered 200 None 0] eq_refl eq_refl).
Defined.

(** With the default budget no script makes [fetchWithRetry] issue a
    seventh request. *)
Lemma Part001_default_at_most_six_requests (net : list Part001.attempt_env) :
  (Part001.requests (snd (fst (Part001.fetchWithRetry_default net))) <= 6)%nat.
Proof.
  apply (fetchWithRetry_request_bound net 5 1).
Qed.

(** C3. A status that is neither 2xx nor retryable does not end the call
    while retries remain: after a 404 on the first attempt
    [fetchWithRetry] sleeps and issues a second request, and resolves with
    the 200 that follows; against six 404s it issues six requests before
    it rejects with "Non-retryable error: 404". *)
Theorem Part001_terminal_status_is_retried :
  Part001.answered_terminal (Part001.answered 404 None 0) = true
  /\ Part001.fetchWithRetry_default
       [Part001.answered 404 None 0; Part001.answered 200 None 0]
     = (Some (Part001.Fulfilled
                {| status := 200; retry_after := None; json := None |}),
        [Part001.Request; Part001.Sleep (Fin 1000); Part001.Request], [])
  /\ (let '(r, io, rest) :=
        Part001.fetchWithRetry_default
          (repeat (Part001.answered 404 None 0) 6) in
      r = Some (Part001.RejectedWith (Part001.NonRetryable 404))
      /\ Part001.requests io = 6%nat).
Proof. repeat split. Qed.

(* ================================================================== *)
(** ** The pagination loop of index.js *)

(** What classification leaves alone. *)
Lemma Index_classify_all_frame (data : list patient) :
  forall st,
    let st' := Index.classify_all st data in
    Index.page st' = Index.page st
    /\ Index.totalExpected st' = Index.totalExpected st
    /\ Index.hasNext st' = Index.hasNext st
    /\ Index.processedCount st'
       = Index.processedCount st + Z.of_nat (length data)
    /\ filter is_warning (Index.console st')
       = filter is_warning (Index.console st)
    /\ filter is_fetch (Index.console st')
       = filter is_fetch (Index.console st).
Proof.
  unfold Index.classify_all.
  induction data as [|p data IH]; intro st.
  - simpl. repeat split; lia.
  - cbn zeta in *. simpl fold_left.
    destruct (IH (Index.classify st p)) as [H1 [H2 [H3 [H4 [H5 H6]]]]].
    rewrite H1, H2, H3, H4, H5, H6. simpl.
    rewrite !filter_app.
    replace (filter is_warning
               (Index.bpScore_log (blood_pressure p))) with (@nil event).
    2:{ unfold Index.bpScore_log. destruct (parseBP _); reflexivity. }
    replace (filter is_fetch
               (Index.bpScore_log (blood_pressure p))) with (@nil event).
    2:{ unfold Index.bpScore_log. destruct (parseBP _); reflexivity. }
    rewrite !app_nil_r. repeat split. lia.
Qed.

(** Once the loop condition is false the loop is over. *)
Lemma Index_loop_exit (net : list fetch_outcome) (st : Index.run_state) :
  truthy (Index.hasNext st) = false ->
  Index.loop net st = Index.finish st.
Proof. intro H. destruct net; simpl; rewrite H; reflexivity. Qed.

(** One turn of the loop on a well-formed page is [page_step]. *)
Lemma Index_loop_step (res : response) (e : Spec.page_envelope)
      (net : list fetch_outcome) (st : Index.run_state) :
  Spec.envelope_of res = Some e ->
  truthy (Index.hasNext st) = true ->
  Index.loop (Resolved res :: net) st = Index.loop net (page_step st e).
Proof.
  unfold Spec.envelope_of. intros He Hn. simpl. rewrite Hn.
  destruct (ok res); [|discriminate]. simpl negb. cbv iota.
  unfold Index.process_page.
  destruct (json res) as [body|]; [|discriminate].
  destruct (Json.data body) as [d|]; [|discriminate].
  destruct (Json.pagination body) as [pg|]; [|discriminate].
  destruct (Json.total pg) as [| |?|t|?|?] eqn:Et; try discriminate.
  destruct (Json.hasNext pg) as [| |b|?|?|?] eqn:Eb; try discriminate.
  injection He as <-. unfold page_step. simpl.
  destruct (strict_eq (Index.totalExpected st) VNull); reflexivity.
Qed.

Lemma fold_left_classify_report_app (a b : list patient) (r : report) :
  fold_left classify_report (a ++ b) r
  = fold_left classify_report b (fold_left classify_report a r).
Proof. apply fold_left_app. Qed.

(** What one turn does to each variable. *)
Lemma page_step_facts (st : Index.run_state) (e : Spec.page_envelope) :
  let st' := page_step st e in
  Index.page st' = Index.page st + 1
  /\ Index.hasNext st' = VBool (Spec.hasMore e)
  /\ Index.totalExpected st'
     = (if strict_eq (Index.totalExpected st) VNull
        then VNum (Spec.total e) else Index.totalExpected st)
  /\ Index.processedCount st'
     = Index.processedCount st + Z.of_nat (length (Spec.records e))
  /\ Index.payload st'
     = fold_left classify_report (Spec.records e) (Index.payload st)
  /\ filter is_warning (Index.console st')
     = filter is_warning (Index.console st)
  /\ filter is_fetch (Index.console st')
     = filter is_fetch (Index.console st)
       ++ [Fetch (Index.page st) Index.limit].
Proof.
  unfold page_step. cbv zeta.
  set (st0 := Index.log st (Fetch (Index.page st) Index.limit)).
  set (st1 := if strict_eq (Index.totalExpected st0) VNull
              then Index.set_totalExpected st0 (VNum (Spec.total e))
              else st0).
  set (st2 := Index.log st1
                (LogPage (Index.page st1) (length (Spec.records e)))).
  destruct (Index_classify_all_frame (Spec.records e) st2)
    as [H1 [H2 [H3 [H4 [H5 H6]]]]].
  assert (P1 : Index.page st1 = Index.page st
               /\ Index.processedCount st1 = Index.processedCount st
               /\ Index.payload st1 = Index.payload st
               /\ Index.console st1 = Index.console st0
               /\ Index.totalExpected st1
                  = (if strict_eq (Index.totalExpected st) VNull
                     then VNum (Spec.total e) else Index.totalExpected st)).
  { unfold st1. change (Index.totalExpected st0)
      with (Index.totalExpected st).
    destruct (strict_eq (Index.totalExpected st) VNull);
      repeat split. }
  destruct P1 as [Q1 [Q2 [Q3 [Q4 Q5]]]].
  simpl. rewrite H1, H2, H4, H5, H6, Index_classify_all_payload.
  unfold st2; simpl. rewrite Q1, Q2, Q3, Q4, Q5.
  unfold st0; simpl. rewrite !filter_app; simpl. rewrite !app_nil_r.
  repeat split.
Qed.

(** What a sequence of turns does to each variable. *)
Lemma pages_facts (es : list Spec.page_envelope) :
  forall st,
    let st' := fold_left page_step es st in
    let all := concat (map Spec.records es) in
    Index.page st' = Index.page st + Z.of_nat (length es)
    /\ Index.totalExpected st'
       = match es with
         | [] => Index.totalExpected st
         | first :: _ =>
             if strict_eq (Index.totalExpected st) VNull
             then VNum (Spec.total first) else Index.totalExpected st
         end
    /\ Index.processedCount st'
       = Index.processedCount st + Z.of_nat (length all)
    /\ Index.payload st' = fold_left classify_report all (Index.payload st)
    /\ filter is_warning (Index.console st')
       = filter is_warning (Index.console st)
    /\ filter is_fetch (Index.console st')
       = filter is_fetch (Index.console st)
         ++ map (fun i => Fetch (Index.page st + Z.of_nat i) Index.limit)
              (seq 0 (length es)).
Proof.
  induction es as [|e es IH]; intro st; cbv zeta.
  - simpl. rewrite app_nil_r. repeat split; lia.
  - simpl fold_left.
    destruct (IH (page_step st e)) as [H1 [H2 [H3 [H4 [H5 H6]]]]].
    destruct (page_step_facts st e) as [S1 [_ [S3 [S4 [S5 [S6 S7]]]]]].
    cbv zeta in *.
    rewrite H1, H2, H3, H4, H5, H6, S1, S3, S4, S5, S6, S7.
    simpl map. simpl concat. rewrite length_app, fold_left_classify_report_app.
    repeat split.
    + simpl length. lia.
    + destruct (strict_eq (Index.totalExpected st) VNull) eqn:E.
      * destruct es; reflexivity.
      * destruct es; [reflexivity|]. rewrite E. reflexivity.
    + lia.
    + rewrite <- app_assoc. f_equal. simpl length. simpl seq. simpl map.
      rewrite Z.add_0_r. rewrite <- seq_shift, map_map.
      simpl app. f_equal. apply map_ext.
      intro i. f_equal. lia.
Qed.

(** Well-formed pages, all but the last announcing another page, carry the
    loop to its end. *)
Lemma Index_loop_pages (more : list Spec.page_envelope) :
  forall (first : Spec.page_envelope) (rs : list response)
         (rest : list fetch_outcome) (st : Index.run_state),
    map Spec.envelope_of rs = map Some (first :: more) ->
    map Spec.hasMore (first :: more) = repeat true (length more) ++ [false] ->
    truthy (Index.hasNext st) = true ->
    Index.loop (map Resolved rs ++ rest) st
    = Index.finish (fold_left page_step (first :: more) st).
Proof.
  induction more as [|e more IH]; intros first rs rest st Hrs Hmore Hn.
  - destruct rs as [|r [|r' rs']]; try discriminate.
    simpl in Hrs. injection Hrs as Hr. simpl in Hmore.
    injection Hmore as Hm. simpl map. simpl app.
    rewrite (Index_loop_step _ _ _ _ Hr Hn).
    simpl fold_left. apply Index_loop_exit.
    destruct (page_step_facts st first) as [_ [H _]]. cbv zeta in H.
    rewrite H, Hm. reflexivity.
  - destruct rs as [|r rs]; [discriminate|].
    simpl in Hrs. injection Hrs as Hr Hrs.
    simpl in Hmore. injection Hmore as Hm Hmore.
    simpl map. rewrite <- app_comm_cons.
    rewrite (Index_loop_step _ _ _ _ Hr Hn).
    change (fold_left page_step (first :: e :: more) st)
      with (fold_left page_step (e :: more) (page_step st first)).
    apply IH.
    + exact Hrs.
    + exact Hmore.
    + destruct (page_step_facts st first) as [_ [H _]]. cbv zeta in H.
      rewrite H, Hm. reflexivity.
Qed.

(** Over the envelope of section 3, where [total] is a number and
    [hasNext] a boolean.  A run of [index.js] over such pages, all but the last
    announcing another page: the run completes with the report built from
    all the records of all the pages; the only warning it can emit compares
    the number of records processed with the total declared by the first
    page, whatever the later pages declare, and it is emitted exactly when
    the two differ; the payload is logged last; the pages are requested in
    order, one request per page, and nothing after the last page. *)
Theorem Index_run_total_mismatch_only_warns :
  forall (rs : list response) (first : Spec.page_envelope)
         (more : list Spec.page_envelope) (rest : list fetch_outcome),
    map Spec.envelope_of rs = map Some (first :: more) ->
    map Spec.hasMore (first :: more) = repeat true (length more) ++ [false] ->
    let all := concat (map Spec.records (first :: more)) in
    let count := Z.of_nat (length all) in
    let report := fold_left classify_report all Index.empty_report in
    exists out,
      Index.run (map Resolved rs ++ rest)
      = Index.Completed report (out ++ [LogPayload report])
      /\ filter is_warning out
         = (if num_eq (num_of_Z count) (Spec.total first) then []
            else [WarnMismatch count (VNum (Spec.total first))])
      /\ filter is_fetch out
         = map (fun i => Fetch (Z.of_nat i) Index.limit)
             (seq 1 (length rs)).
Proof.
  intros rs first more rest Hrs Hmore all count report.
  unfold Index.run.
  rewrite (Index_loop_pages more first rs rest Index.initial Hrs Hmore
             eq_refl).
  destruct (pages_facts (first :: more) Index.initial)
    as [H1 [H2 [H3 [H4 [H5 H6]]]]].
  cbv zeta in *.
  set (st := fold_left page_step (first :: more) Index.initial) in *.
  change (Index.totalExpected st = VNum (Spec.total first)) in H2.
  change (Index.processedCount st = 0 + count) in H3.
  change (Index.payload st = report) in H4.
  change (filter is_warning (Index.console st) = []) in H5.
  change (filter is_fetch (Index.console st)
          = map (fun i => Fetch (1 + Z.of_nat i) Index.limit)
              (seq 0 (S (length more)))) in H6.
  assert (Hlen : length rs = S (length more)).
  { apply (f_equal (@length _)) in Hrs. rewrite !length_map in Hrs.
    exact Hrs. }
  assert (Hfetch : filter is_fetch (Index.console st)
                   = map (fun i => Fetch (Z.of_nat i) Index.limit)
                       (seq 1 (length rs))).
  { rewrite H6, Hlen, <- seq_shift, map_map.
    apply map_ext. intro i. f_equal. lia. }
  unfold Index.finish. rewrite H2, H3. simpl strict_eq.
  destruct (num_eq (num_of_Z count) (Spec.total first)) eqn:E;
    simpl negb; cbv iota.
  - exists (Index.console st). simpl. rewrite H4.
    repeat split; assumption.
  - exists (Index.console st
            ++ [WarnMismatch count (VNum (Spec.total first))]).
    simpl. rewrite H4, !filter_app, H5, Hfetch. simpl.
    rewrite app_nil_r. repeat split.
Qed.

(** Two pages of one record each; the first declares a total of 5, the
    second a total of 2: the warning reports 2 processed against the 5 of
    the first page, and the report holds both records' verdicts. *)
Lemma Index_run_two_pages_witness :
  let rs := [page_response [patient_at_4] (VNum (Fin 5))
               (VBool true);
             page_response [patient_at_3] (VNum (Fin 2))
               (VBool false)] in
  let first := {| Spec.records := [patient_at_4];
                  Spec.total := Fin 5; Spec.hasMore := true |} in
  let more := [{| Spec.records := [patient_at_3];
                  Spec.total := Fin 2; Spec.hasMore := false |}] in
  let report := {| high_risk_patients := [VStr "P4"];
                   fever_patients := [VStr "P4"];
                   data_quality_issues := [] |} in
  (map Spec.envelope_of rs = map Some (first :: more)
   /\ map Spec.hasMore (first :: more)
      = repeat true (length more) ++ [false])
  /\ exists out,
      Index.run (map Resolved rs ++ [Rejected "unused"])
      = Index.Completed report (out ++ [LogPayload report])
      /\ filter is_warning out = [WarnMismatch 2 (VNum (Fin 5))]
      /\ filter is_fetch out = [Fetch 1 10; Fetch 2 10].
Proof.
  split; [split; reflexivity|].
  exact (Index_run_total_mismatch_only_warns
           [page_response [patient_at_4] (VNum (Fin 5))
              (VBool true);
            page_response [patient_at_3] (VNum (Fin 2))
              (VBool false)]
           {| Spec.records := [patient_at_4];
              Spec.total := Fin 5; Spec.hasMore := true |}
           [{| Spec.records := [patient_at_3];
               Spec.total := Fin 2; Spec.hasMore := false |}]
           [Rejected "unused"] eq_refl eq_refl).
Defined.

(** *** Pages of any shape *)

(** Only [null] is strictly equal to [null]. *)
Lemma strict_eq_null (v : value) : strict_eq v VNull = true -> v = VNull.
Proof. destruct v; simpl; congruence. Qed.

(** One turn of the loop on a readable page is [turn]. *)
Lemma Index_loop_turn (res : response) (p : page_read)
      (net : list fetch_outcome) (st : Index.run_state) :
  page_of res = Some p ->
  truthy (Index.hasNext st) = true ->
  Index.loop (Resolved res :: net) st = Index.loop net (turn st p).
Proof.
  unfold page_of. intros Hp Hn. simpl. rewrite Hn.
  destruct (ok res); [|discriminate]. simpl negb. cbv iota.
  unfold Index.process_page.
  destruct (json res) as [body|]; [|discriminate].
  destruct (Json.data body) as [d|]; [|discriminate].
  destruct (Json.pagination body) as [pg|]; [|discriminate].
  injection Hp as <-. unfold turn. simpl.
  destruct (strict_eq (Index.totalExpected st) VNull); reflexivity.
Qed.

(** What one turn does to each variable. *)
Lemma turn_facts (st : Index.run_state) (p : page_read) :
  let st' := turn st p in
  Index.page st' = Index.page st + 1
  /\ Index.hasNext st' = read_hasNext p
  /\ Index.totalExpected st'
     = (if strict_eq (Index.totalExpected st) VNull
        then read_total p else Index.totalExpected st)
  /\ Index.processedCount st'
     = Index.processedCount st + Z.of_nat (length (read_data p))
  /\ Index.payload st'
     = fold_left classify_report (read_data p) (Index.payload st)
  /\ filter is_warning (Index.console st')
     = filter is_warning (Index.console st)
  /\ filter is_fetch (Index.console st')
     = filter is_fetch (Index.console st)
       ++ [Fetch (Index.page st) Index.limit].
Proof.
  unfold turn. cbv zeta.
  set (st0 := Index.log st (Fetch (Index.page st) Index.limit)).
  set (st1 := if strict_eq (Index.totalExpected st0) VNull
              then Index.set_totalExpected st0 (read_total p)
              else st0).
  set (st2 := Index.log st1
                (LogPage (Index.page st1) (length (read_data p)))).
  destruct (Index_classify_all_frame (read_data p) st2)
    as [H1 [H2 [H3 [H4 [H5 H6]]]]].
  assert (P1 : Index.page st1 = Index.page st
               /\ Index.processedCount st1 = Index.processedCount st
               /\ Index.payload st1 = Index.payload st
               /\ Index.console st1 = Index.console st0
               /\ Index.totalExpected st1
                  = (if strict_eq (Index.totalExpected st) VNull
                     then read_total p else Index.totalExpected st)).
  { unfold st1. change (Index.totalExpected st0)
      with (Index.totalExpected st).
    destruct (strict_eq (Index.totalExpected st) VNull);
      repeat split. }
  destruct P1 as [Q1 [Q2 [Q3 [Q4 Q5]]]].
  simpl. rewrite H1, H2, H4, H5, H6, Index_classify_all_payload.
  unfold st2; simpl. rewrite Q1, Q2, Q3, Q4, Q5.
  unfold st0; simpl. rewrite !filter_app; simpl. rewrite !app_nil_r.
  repeat split.
Qed.

(** What a sequence of turns does to each variable: [totalExpected], once
    it is not [null], stays as it is. *)
Lemma turns_facts (ps : list page_read) :
  forall st,
    let st' := fold_left turn ps st in
    let all := concat (map read_data ps) in
    Index.page st' = Index.page st + Z.of_nat (length ps)
    /\ Index.totalExpected st'
       = (if strict_eq (Index.totalExpected st) VNull
          then captured_total (map read_total ps)
          else Index.totalExpected st)
    /\ Index.processedCount st'
       = Index.processedCount st + Z.of_nat (length all)
    /\ Index.payload st' = fold_left classify_report all (Index.payload st)
    /\ filter is_warning (Index.console st')
       = filter is_warning (Index.console st)
    /\ filter is_fetch (Index.console st')
       = filter is_fetch (Index.console st)
         ++ map (fun i => Fetch (Index.page st + Z.of_nat i) Index.limit)
              (seq 0 (length ps)).
Proof.
  induction ps as [|p ps IH]; intro st; cbv zeta.
  - simpl. rewrite app_nil_r. repeat split; try lia.
    destruct (strict_eq (Index.totalExpected st) VNull) eqn:E;
      [apply strict_eq_null; exact E | reflexivity].
  - simpl fold_left.
    destruct (IH (turn st p)) as [H1 [H2 [H3 [H4 [H5 H6]]]]].
    destruct (turn_facts st p) as [S1 [_ [S3 [S4 [S5 [S6 S7]]]]]].
    cbv zeta in *.
    rewrite H1, H2, H3, H4, H5, H6, S1, S3, S4, S5, S6, S7.
    simpl map. simpl concat. rewrite length_app, fold_left_classify_report_app.
    repeat split.
    + simpl length. lia.
    + simpl captured_total.
      destruct (strict_eq (Index.totalExpected st) VNull) eqn:E.
      * destruct (strict_eq (read_total p) VNull); reflexivity.
      * rewrite E. reflexivity.
    + lia.
    + rewrite <- app_assoc. f_equal. simpl length. simpl seq. simpl map.
      rewrite Z.add_0_r. rewrite <- seq_shift, map_map.
      simpl app. f_equal. apply map_ext.
      intro i. f_equal. lia.
Qed.

(** Readable pages, each but the last with a truthy [hasNext], carry the
    loop to its end. *)
Lemma Index_loop_turns (ps : list page_read) :
  forall (last : page_read) (rs : list response)
         (rest : list fetch_outcome) (st : Index.run_state),
    map page_of rs = map Some (ps ++ [last]) ->
    forallb (fun p => truthy (read_hasNext p)) ps = true ->
    truthy (read_hasNext last) = false ->
    truthy (Index.hasNext st) = true ->
    Index.loop (map Resolved rs ++ rest) st
    = Index.finish (fold_left turn (ps ++ [last]) st).
Proof.
  induction ps as [|p ps IH]; intros last rs rest st Hrs Hps Hlast Hn.
  - destruct rs as [|r [|r' rs']]; try discriminate.
    simpl in Hrs. injection Hrs as Hr. simpl map. simpl app.
    rewrite (Index_loop_turn _ _ _ _ Hr Hn).
    simpl fold_left. apply Index_loop_exit.
    destruct (turn_facts st last) as [_ [H _]]. cbv zeta in H.
    rewrite H. exact Hlast.
  - destruct rs as [|r rs]; [discriminate|].
    simpl in Hrs. injection Hrs as Hr Hrs.
    simpl in Hps. apply andb_true_iff in Hps. destruct Hps as [Hp Hps].
    simpl map. rewrite <- !app_comm_cons.
    rewrite (Index_loop_turn _ _ _ _ Hr Hn).
    simpl fold_left.
    apply IH; assumption.
Qed.

(** A turn of the loop that goes through read a page. *)
Lemma process_page_reads (st : Index.run_state) (res : response)
      (st' : Index.run_state) :
  ok res = true ->
  Index.process_page st res = inl st' ->
  exists p, page_of res = Some p /\ Index.hasNext st' = read_hasNext p.
Proof.
  unfold Index.process_page, page_of. intros O H. rewrite O.
  destruct (json res) as [body|]; [|discriminate].
  cbv zeta in H.
  destruct (Json.data body) as [d|], (Json.pagination body) as [pg|];
    destruct (strict_eq (Index.totalExpected st) VNull);
    try discriminate;
    injection H as <-; eexists; split; reflexivity.
Qed.

(** The runs that reach the consistency check are those over readable
    pages, each but the last with a truthy [hasNext]. *)
Lemma Index_loop_completes_only_over_pages (net : list fetch_outcome) :
  forall (st : Index.run_state) (report : report) (console : list event),
    truthy (Index.hasNext st) = true ->
    Index.loop net st = Index.Completed report console ->
    exists rs ps last rest,
      net = map Resolved rs ++ rest
      /\ map page_of rs = map Some (ps ++ [last])
      /\ forallb (fun p => truthy (read_hasNext p)) ps = true
      /\ truthy (read_hasNext last) = false.
Proof.
  induction net as [|f net IH]; intros st report console Hn H.
  - simpl in H. rewrite Hn in H. discriminate.
  - simpl in H. rewrite Hn in H.
    destruct f as [res|reason]; [|discriminate].
    destruct (ok res) eqn:O; [|discriminate]. simpl negb in H. cbv iota in H.
    destruct (Index.process_page
                (Index.log st (Fetch (Index.page st) Index.limit)) res)
      as [st'|[e out]] eqn:E; [|discriminate].
    destruct (process_page_reads _ _ _ O E) as [p [Hp Hh]].
    destruct (truthy (Index.hasNext st')) eqn:T.
    + destruct (IH st' report console T H)
        as [rs [ps [last [rest [N [M [A B]]]]]]].
      exists (res :: rs), (p :: ps), last, rest. repeat split.
      * simpl. rewrite N. reflexivity.
      * simpl. rewrite Hp, M. reflexivity.
      * simpl. rewrite <- Hh, T. exact A.
      * exact B.
    + exists [res], [], p, net. repeat split.
      * simpl. rewrite Hp. reflexivity.
      * rewrite <- Hh. exact T.
Qed.

(** The same for [run]. *)
Lemma Index_run_completes_only_over_pages (net : list fetch_outcome)
      (report : report) (console : list event) :
  Index.run net = Index.Completed report console ->
  exists rs ps last rest,
    net = map Resolved rs ++ rest
    /\ map page_of rs = map Some (ps ++ [last])
    /\ forallb (fun p => truthy (read_hasNext p)) ps = true
    /\ truthy (read_hasNext last) = false.
Proof.
  apply (Index_loop_completes_only_over_pages net Index.initial).
  reflexivity.
Qed.

(** C9. Every run of [index.js] whose loop ends, that is every run over
    pages that can be read, each but the last with a truthy [hasNext] (no
    other run reaches the consistency check,
    [Index_run_completes_only_over_pages]), whatever the types of [total]
    and [hasNext].  The expected total is captured once, from the first
    page whose [pagination.total] is not [null]: from the first page
    whenever its total is not [null], as when it is a number, the totals
    of the later pages being ignored.  The run completes with the report
    built from all the records of all the pages; the only warning it can
    emit compares the number of records processed with the captured total,
    and it is emitted exactly when the two are not strictly equal; the
    payload is logged last; the pages are requested in order, one request
    per page, and nothing after the last page. *)
Theorem Index_run_total_captured_once_mismatch_only_warns :
  forall (rs : list response) (ps : list page_read) (last : page_read)
         (rest : list fetch_outcome),
    map page_of rs = map Some (ps ++ [last]) ->
    forallb (fun p => truthy (read_hasNext p)) ps = true ->
    truthy (read_hasNext last) = false ->
    let pages := ps ++ [last] in
    let all := concat (map read_data pages) in
    let count := Z.of_nat (length all) in
    let report := fold_left classify_report all Index.empty_report in
    let captured := captured_total (map read_total pages) in
    (forall first others,
        pages = first :: others ->
        strict_eq (read_total first) VNull = false ->
        captured = read_total first)
    /\ exists out,
        Index.run (map Resolved rs ++ rest)
        = Index.Completed report (out ++ [LogPayload report])
        /\ filter is_warning out
           = (if strict_eq (VNum (num_of_Z count)) captured then []
              else [WarnMismatch count captured])
        /\ filter is_fetch out
           = map (fun i => Fetch (Z.of_nat i) Index.limit)
               (seq 1 (length rs)).
Proof.
  intros rs ps last rest Hrs Hps Hlast pages all count report captured.
  split.
  { intros first others E F. unfold captured. rewrite E. simpl.
    rewrite F. reflexivity. }
  unfold Index.run.
  rewrite (Index_loop_turns ps last rs rest Index.initial Hrs Hps Hlast
             eq_refl).
  destruct (turns_facts pages Index.initial)
    as [H1 [H2 [H3 [H4 [H5 H6]]]]].
  cbv zeta in *. fold pages.
  set (st := fold_left turn pages Index.initial) in *.
  change (Index.totalExpected st = captured) in H2.
  change (Index.processedCount st = 0 + count) in H3.
  change (Index.payload st = report) in H4.
  change (filter is_warning (Index.console st) = []) in H5.
  change (filter is_fetch (Index.console st)
          = map (fun i => Fetch (1 + Z.of_nat i) Index.limit)
              (seq 0 (length pages))) in H6.
  assert (Hlen : length rs = length pages).
  { apply (f_equal (@length _)) in Hrs. rewrite !length_map in Hrs.
    exact Hrs. }
  assert (Hfetch : filter is_fetch (Index.console st)
                   = map (fun i => Fetch (Z.of_nat i) Index.limit)
                       (seq 1 (length rs))).
  { rewrite H6, Hlen, <- seq_shift, map_map.
    apply map_ext. intro i. f_equal. lia. }
  unfold Index.finish. rewrite H2, H3.
  change (0 + count) with count.
  destruct (strict_eq (VNum (num_of_Z count)) captured) eqn:E;
    simpl negb; cbv iota.
  - exists (Index.console st). simpl. rewrite H4.
    repeat split; assumption.
  - exists (Index.console st ++ [WarnMismatch count captured]).
    simpl. rewrite H4, !filter_app, H5, Hfetch. simpl.
    rewrite app_nil_r. repeat split.
Qed.

(** Three pages.  The first declares a total of 5 and a [hasNext] of 1,
    the second, empty, a [null] total and a [hasNext] of "more", the third
    a total of 2 and no [hasNext]: the warning reports the 2 records
    processed against the 5 of the first page, although the third page
    declares 2. *)
Lemma Index_run_three_pages_witness :
  let rs := [page_response [patient_at_4] (VNum (Fin 5)) (VNum (Fin 1));
             page_response [] VNull (VStr "more");
             page_response [patient_at_3] (VNum (Fin 2)) VUndefined] in
  let ps := [{| read_data := [patient_at_4]; read_total := VNum (Fin 5);
                read_hasNext := VNum (Fin 1) |};
             {| read_data := []; read_total := VNull;
                read_hasNext := VStr "more" |}] in
  let last := {| read_data := [patient_at_3]; read_total := VNum (Fin 2);
                 read_hasNext := VUndefined |} in
  let report := {| high_risk_patients := [VStr "P4"];
                   fever_patients := [VStr "P4"];
                   data_quality_issues := [] |} in
  (map page_of rs = map Some (ps ++ [last])
   /\ forallb (fun p => truthy (read_hasNext p)) ps = true
   /\ truthy (read_hasNext last) = false)
  /\ (forall first others,
         ps ++ [last] = first :: others ->
         strict_eq (read_total first) VNull = false ->
         VNum (Fin 5) = read_total first)
  /\ exists out,
      Index.run (map Resolved rs ++ [Rejected "unused"])
      = Index.Completed report (out ++ [LogPayload report])
      /\ filter is_warning out = [WarnMismatch 2 (VNum (Fin 5))]
      /\ filter is_fetch out = [Fetch 1 10; Fetch 2 10; Fetch 3 10].
Proof.
  split; [repeat split|].
  exact (Index_run_total_captured_once_mismatch_only_warns
           [page_response [patient_at_4] (VNum (Fin 5)) (VNum (Fin 1));
            page_response [] VNull (VStr "more");
            page_response [patient_at_3] (VNum (Fin 2)) VUndefined]
           [{| read_data := [patient_at_4]; read_total := VNum (Fin 5);
               read_hasNext := VNum (Fin 1) |};
            {| read_data := []; read_total := VNull;
               read_hasNext := VStr "more" |}]
           {| read_data := [patient_at_3]; read_total := VNum (Fin 2);
              read_hasNext := VUndefined |}
           [Rejected "unused"] eq_refl eq_refl eq_refl).
Defined.

(** The total is not always that of the first page.  When the first page
    declares [total: null], [totalExpected] is still [null] on the second
    turn and the total of the second page is captured.  Two pages of one
    record each, the first with a [null] total: when the second declares
    7, the warning reports 7 as the expected total; when the second
    declares 2, there is no warning at all, although the 2 records
    processed are not the [null] of the first page. *)
Lemma Index_first_page_null_total_counterexample :
  (exists out,
      Index.run [Resolved (page_response [patient_at_4] VNull
                             (VBool true));
                 Resolved (page_response [patient_at_3]
                             (VNum (Fin 7)) (VBool false))]
      = Index.Completed
          {| high_risk_patients := [VStr "P4"];
             fever_patients := [VStr "P4"];
             data_quality_issues := [] |} out
      /\ filter is_warning out = [WarnMismatch 2 (VNum (Fin 7))])
  /\ (exists out,
        Index.run [Resolved (page_response [patient_at_4] VNull
                               (VBool true));
                   Resolved (page_response [patient_at_3]
                               (VNum (Fin 2)) (VBool false))]
        = Index.Completed
            {| high_risk_patients := [VStr "P4"];
               fever_patients := [VStr "P4"];
               data_quality_issues := [] |} out
        /\ filter is_warning out = [])
  /\ strict_eq (VNum (num_of_Z 2)) VNull = false.
Proof.
  split; [|split]; [eexists; split; reflexivity ..|reflexivity].
Qed.

(** The boundary of the high-risk rule: a record at exactly 4 is listed,
    a record at 3 is not. *)
Lemma Index_high_risk_boundary :
  Spec.total_risk patient_at_4 = 4
  /\ Spec.total_risk patient_at_3 = 3
  /\ high_risk_patients
       (fold_left classify_report [patient_at_4; patient_at_3]
          Index.empty_report)
     = [VStr "P4"].
Proof. repeat split. Qed.

(* ================================================================== *)
(** ** The scripts by example *)

(** 503 with [retry-after: 2], 503 without a hint, 200: two delayed
    retries, the first waiting the hinted 2000 ms plus jitter, the second
    the backoff of attempt 2 plus jitter, then the response. *)
Lemma Part001_503_503_200 :
  Part001.fetchWithRetry_default
    [Part001.answered 503 (Some "2"%string) (1 # 2);
     Part001.answered 503 None (1 # 3);
     Part001.answered 200 None 0]
  = (Some (Part001.Fulfilled
             {| status := 200; retry_after := None; json := None |}),
     [Part001.Request; Part001.Warn 503 1 5 (Fin 2150);
      Part001.Sleep (Fin 2150);
      Part001.Request; Part001.Warn 503 2 5 (Fin 2100);
      Part001.Sleep (Fin 2100);
      Part001.Request],
     []).
Proof. reflexivity. Qed.

(** A [fetch] that fails is retried under the same budget, without jitter;
    when the last allowed attempt fails too its error is rethrown. *)
Lemma Part001_network_errors :
  Part001.fetchWithRetry
    [{| Part001.fetched := Rejected "ECONNRESET"; Part001.random := 0 |};
     {| Part001.fetched := Rejected "ETIMEDOUT"; Part001.random := 0 |}]
    1 1
  = (Some (Part001.RejectedWith (Part001.NetworkError "ETIMEDOUT")),
     [Part001.Request; Part001.Sleep (Fin 1000); Part001.Request], []).
Proof. reflexivity. Qed.

(** The backoff doubles from 1000 ms and is capped at 10000 ms. *)
Lemma Part001_backoff_values :
  map Part001.backoff [1; 2; 3; 4; 5; 6]
  = [Fin 1000; Fin 2000; Fin 4000; Fin 8000; Fin 10000; Fin 10000].
Proof. reflexivity. Qed.

(** A page answered with a status outside 2xx aborts [run] of [index.js];
    so does a body without [pagination]. *)
Lemma Index_run_aborts :
  Index.run [Resolved {| status := 500; retry_after := None;
                         json := None |}]
  = Index.Thrown (Index.PatientApiError 1 500) [Fetch 1 10]
  /\ Index.run [Resolved {| status := 200; retry_after := None;
                            json := Some {| Json.data := Some [];
                                            Json.pagination := None |} |}]
     = Index.Thrown (Index.TypeError "pagination.total") [Fetch 1 10].
Proof. split; reflexivity. Qed.

(** A record whose blood pressure is null and whose temperature is the
    string "abc" is routed to [data_quality_issues], both signals
    contributing 0; a record with temperature 99.7 is in [fever_patients]
    whatever the other fields. *)
Lemma Index_routing_examples :
  let p := {| patient_id := VStr "P7"; blood_pressure := VNull;
              temperature := VStr "abc"; age := VUndefined |} in
  let q := {| patient_id := VStr "P8"; blood_pressure := VStr "N/A";
              temperature := VNum (Fin 99.7); age := VNum (Fin 70) |} in
  fold_left classify_report [p; q] Index.empty_report
  = {| high_risk_patients := [];
       fever_patients := [VStr "P8"];
       data_quality_issues := [VStr "P7"; VStr "P8"] |}
  /\ Spec.total_risk p = 0 /\ Spec.total_risk q = 3.
Proof. repeat split. Qed.

(* ================================================================== *)
(** ** More on the scorers *)

(** Splits the comparisons of the goal one at a time, simplifying after
    each, so that only the branches the code can take are visited. *)
Ltac split_orders_lazily :=
  repeat (match goal with
          | |- context [num_lt (Fin ?a) (Fin ?b)] =>
              let H := fresh "O" in
              destruct (num_lt (Fin a) (Fin b)) eqn:H;
              [apply num_lt_Fin in H | apply num_lt_Fin_false in H]
          | |- context [num_le (Fin ?a) (Fin ?b)] =>
              let H := fresh "O" in
              destruct (num_le (Fin a) (Fin b)) eqn:H;
              [apply num_le_Fin in H | apply num_le_Fin_false in H]
          end; cbn [andb orb negb score invalid]).

(** X1. [parseBP] returns [null] exactly for a value that is not a string,
    for the empty string, and for a string whose first part, or whose
    second part when there is one, is read by [Number] as NaN. *)
Theorem parseBP_rejects_exactly (v : value) :
  parseBP v = None <->
  (forall s, v <> VStr s)
  \/ v = VStr ""
  \/ exists s a rest,
       v = VStr s /\ split "/" s = a :: rest
       /\ (StringToNumber a = NaN
           \/ exists b rest', rest = b :: rest' /\ StringToNumber b = NaN).
Proof. exact (parseBP_null_iff v). Qed.

(** X2. What [parseBP] returns when it does not return [null]: the value
    was a non-empty string; [sys] is the number read from the text before
    the first '/', and is not NaN; [dia] is the number read from the text
    between the first and the second '/', not NaN either, or [undefined]
    when the string holds no '/'. *)
Theorem parseBP_result_shape (v : value) (p : parsed_bp) :
  parseBP v = Some p ->
  exists s a rest,
    v = VStr s /\ s <> ""%string /\ split "/" s = a :: rest
    /\ sys p = VNum (StringToNumber a) /\ StringToNumber a <> NaN
    /\ match rest with
       | [] => dia p = VUndefined
       | b :: _ => dia p = VNum (StringToNumber b) /\ StringToNumber b <> NaN
       end.
Proof.
  intro H.
  destruct v as [| |b|n|s|o]; try discriminate.
  destruct (split_nonempty "/" s) as [a [rest Hs]].
  exists s, a, rest.
  unfold parseBP in H.
  change (isInvalid (VStr s)) with (String.eqb s "") in H.
  simpl typeof in H. simpl negb in H. rewrite orb_false_r in H.
  destruct (String.eqb_spec s "") as [->|Hne]; [discriminate|].
  unfold split_map_Number in H. rewrite Hs in H. cbv zeta in H.
  change (element 0 (map (fun part => Number (VStr part)) (a :: rest)))
    with (Number (VStr a)) in H.
  destruct (Number_isNaN (Number (VStr a))) eqn:Ha; [discriminate|].
  assert (Ha' : StringToNumber a <> NaN).
  { intro E. apply Number_isNaN_Number in E. congruence. }
  destruct rest as [|b rest'].
  - change (element 1 (map (fun part => Number (VStr part)) [a]))
      with VUndefined in H.
    simpl in H. injection H as <-. repeat split; auto.
  - change (element 1 (map (fun part => Number (VStr part))
                         (a :: b :: rest')))
      with (Number (VStr b)) in H.
    destruct (Number_isNaN (Number (VStr b))) eqn:Hb; [discriminate|].
    simpl in H. injection H as <-. repeat split; auto.
    intro E. apply Number_isNaN_Number in E. congruence.
Qed.

Lemma parseBP_result_shape_witness :
  parseBP (VStr "120/80")
  = Some {| sys := VNum (Fin 120); dia := VNum (Fin 80) |}
  /\ exists s a rest,
      VStr "120/80" = VStr s /\ s <> ""%string /\ split "/" s = a :: rest
      /\ sys {| sys := VNum (Fin 120); dia := VNum (Fin 80) |}
         = VNum (StringToNumber a)
      /\ StringToNumber a <> NaN
      /\ match rest with
         | [] => dia {| sys := VNum (Fin 120); dia := VNum (Fin 80) |}
                 = VUndefined
         | b :: _ =>
             dia {| sys := VNum (Fin 120); dia := VNum (Fin 80) |}
             = VNum (StringToNumber b)
             /\ StringToNumber b <> NaN
         end.
Proof.
  split; [reflexivity|].
  exact (parseBP_result_shape (VStr "120/80")
           {| sys := VNum (Fin 120); dia := VNum (Fin 80) |} eq_refl).
Defined.

(** X3. A blood pressure for which [parseBP] finds no diastolic value (a
    string without '/') is scored by its systolic value alone by
    [bpScore] of [index.js]: 2 from 130 to 139, 3 from 140, 0 otherwise;
    it never scores 1 and is never flagged. *)
Theorem Index_bpScore_without_diastolic (v : value) (S : number) :
  parseBP v = Some {| sys := VNum S; dia := VUndefined |} ->
  Index.bpScore v
  = {| score := if num_le (Fin 130) S && num_le S (Fin 139) then 2
                else if num_le (Fin 140) S then 3 else 0;
       invalid := false |}.
Proof.
  intro H. unfold Index.bpScore. rewrite H. cbn [sys dia].
  unfold js_lt, js_le, js_ge. cbn [ToNumber].
  rewrite !num_ge_le.
  change (num_lt NaN (Fin 80)) with false.
  change (num_le (Fin 80) NaN) with false.
  change (num_le (Fin 90) NaN) with false.
  rewrite !andb_false_r, !orb_false_r. cbn [andb].
  destruct (num_le (Fin 130) S && num_le S (Fin 139)); [reflexivity|].
  destruct (num_le (Fin 140) S); reflexivity.
Qed.

Lemma Index_bpScore_without_diastolic_witness :
  parseBP (VStr "150")
  = Some {| sys := VNum (Fin 150); dia := VUndefined |}
  /\ Index.bpScore (VStr "150")
     = {| score := if num_le (Fin 130) (Fin 150)
                      && num_le (Fin 150) (Fin 139) then 2
                   else if num_le (Fin 140) (Fin 150) then 3 else 0;
          invalid := false |}.
Proof.
  split; [reflexivity|].
  exact (Index_bpScore_without_diastolic (VStr "150") (Fin 150) eq_refl).
Defined.

(** X4. [bpScore] of [index.js] on a blood pressure that parses into two
    finite numbers [a] over [b] is never flagged, and each score is reached
    exactly as follows: 1 for 120 <= a <= 129 with b < 80; 2 whenever
    130 <= a <= 139 or 80 <= b <= 89, whatever the other reading (150/85
    scores 2); 3 for a >= 140 with b outside 80..89, or b >= 90 with a
    outside 130..139. *)
Theorem Index_bpScore_preimages (v : value) (a b : Q) :
  parseBP v = Some {| sys := VNum (Fin a); dia := VNum (Fin b) |} ->
  invalid (Index.bpScore v) = false
  /\ (score (Index.bpScore v) = 1 <-> (120 <= a /\ a <= 129 /\ b < 80)%Q)
  /\ (score (Index.bpScore v) = 2
      <-> ((130 <= a /\ a <= 139) \/ (80 <= b /\ b <= 89))%Q)
  /\ (score (Index.bpScore v) = 3
      <-> ((140 <= a /\ (b < 80 \/ 89 < b))
           \/ (90 <= b /\ (a < 130 \/ 139 < a)))%Q).
Proof.
  intro H. rewrite (Index_bpScore_table v (Fin a) (Fin b) H).
  cbn [score invalid]. split; [reflexivity|].
  unfold Spec.bp_table.
  split_orders_lazily;
    repeat split; intros; try discriminate; try lra;
    try (exfalso; lra).
Qed.

Lemma Index_bpScore_preimages_witness :
  parseBP (VStr "150/85")
  = Some {| sys := VNum (Fin 150); dia := VNum (Fin 85) |}
  /\ (invalid (Index.bpScore (VStr "150/85")) = false
      /\ (score (Index.bpScore (VStr "150/85")) = 1
          <-> (120 <= 150 /\ 150 <= 129 /\ 85 < 80)%Q)
      /\ (score (Index.bpScore (VStr "150/85")) = 2
          <-> ((130 <= 150 /\ 150 <= 139) \/ (80 <= 85 /\ 85 <= 89))%Q)
      /\ (score (Index.bpScore (VStr "150/85")) = 3
          <-> ((140 <= 150 /\ (85 < 80 \/ 89 < 85))
               \/ (90 <= 85 /\ (150 < 130 \/ 139 < 150)))%Q)).
Proof.
  split; [reflexivity|].
  exact (Index_bpScore_preimages (VStr "150/85") 150 85 eq_refl).
Defined.

(** X5. Readings that fall between the whole-number bands score 0 in
    [bpScore] of [index.js], unflagged: a systolic value strictly between
    129 and 130 or between 139 and 140 with a diastolic value below 80
    (139.5/70 scores 0 where 139/70 scores 2 and 140/70 scores 3), and a
    diastolic value strictly between 89 and 90 with a systolic value below
    130 or strictly between 139 and 140. *)
Theorem Index_bpScore_between_bands (v : value) (a b : Q) :
  parseBP v = Some {| sys := VNum (Fin a); dia := VNum (Fin b) |} ->
  ((((129 < a /\ a < 130) \/ (139 < a /\ a < 140)) /\ b < 80)
   \/ ((a < 130 \/ (139 < a /\ a < 140)) /\ 89 < b /\ b < 90))%Q ->
  Index.bpScore v = {| score := 0; invalid := false |}.
Proof.
  intros H G. rewrite (Index_bpScore_table v (Fin a) (Fin b) H).
  f_equal. unfold Spec.bp_table.
  split_orders_lazily; try reflexivity; exfalso; lra.
Qed.

Lemma Index_bpScore_between_bands_witness :
  (parseBP (VStr "139.5/70")
   = Some {| sys := VNum (Fin (279 # 2)); dia := VNum (Fin 70) |}
   /\ ((((129 < 279 # 2 /\ 279 # 2 < 130)
         \/ (139 < 279 # 2 /\ 279 # 2 < 140)) /\ 70 < 80)
       \/ ((279 # 2 < 130 \/ (139 < 279 # 2 /\ 279 # 2 < 140))
           /\ 89 < 70 /\ 70 < 90))%Q)
  /\ Index.bpScore (VStr "139.5/70") = {| score := 0; invalid := false |}.
Proof.
  assert (G : ((((129 < 279 # 2 /\ 279 # 2 < 130)
                 \/ (139 < 279 # 2 /\ 279 # 2 < 140)) /\ 70 < 80)
               \/ ((279 # 2 < 130 \/ (139 < 279 # 2 /\ 279 # 2 < 140))
                   /\ 89 < 70 /\ 70 < 90))%Q) by lra.
  split; [split; [reflexivity | exact G]|].
  exact (Index_bpScore_between_bands (VStr "139.5/70") (279 # 2) 70
           eq_refl G).
Defined.

(** The flag of the temperature and age scorers follows the type alone. *)
Lemma scorer_flags (v : value) :
  invalid (tempScore v) = Spec.not_numeric v
  /\ invalid (Index.ageScore v) = Spec.not_numeric v
  /\ invalid (Part000.ageScore v) = Spec.not_numeric v.
Proof.
  unfold tempScore, Index.ageScore, Part000.ageScore.
  destruct v as [| |b|n|s|o].
  1-3, 6: repeat split; reflexivity.
  - change (isInvalid (VNum n) || negb (typeof (VNum n) =? "number")%string)
      with false.
    cbn [Spec.not_numeric].
    repeat split;
      repeat match goal with
             | |- context [if ?c then _ else _] => destruct c
             end; reflexivity.
  - change (negb (typeof (VStr s) =? "number")%string) with true.
    rewrite orb_true_r. repeat split; reflexivity.
Qed.

(** X6. The temperature and the age scorers flag a value exactly when it
    is not of type number: a number is never flagged, be it NaN, negative
    or infinite, and everything else always is.  This holds for
    [tempScore], for [ageScore] of [index.js] and for [ageScore] of
    part_000. *)
Theorem flagged_iff_not_a_number (v : value) :
  invalid (tempScore v) = Spec.not_numeric v
  /\ invalid (Index.ageScore v) = Spec.not_numeric v
  /\ invalid (Part000.ageScore v) = Spec.not_numeric v.
Proof. exact (scorer_flags v). Qed.

(** The bands of [tempScore]. *)
Lemma tempScore_bands (t : Q) :
  invalid (tempScore (VNum (Fin t))) = false
  /\ (score (tempScore (VNum (Fin t))) = 1 <-> (99.6 <= t /\ t <= 100.9)%Q)
  /\ (score (tempScore (VNum (Fin t))) = 2 <-> (101 <= t)%Q)
  /\ (score (tempScore (VNum (Fin t))) = 0
      <-> (t < 99.6 \/ (100.9 < t /\ t < 101))%Q).
Proof.
  unfold tempScore.
  change (isInvalid (VNum (Fin t))
          || negb (typeof (VNum (Fin t)) =? "number")%string) with false.
  unfold js_le, js_ge. cbn [ToNumber]. rewrite !num_ge_le.
  cbv iota.
  split_orders_lazily;
    repeat split; intros; try discriminate; try lra;
    try (exfalso; lra).
Qed.

(** X7. [tempScore] on a finite temperature [t], never flagged: it scores
    1 exactly for 99.6 <= t <= 100.9, 2 exactly for t >= 101, and 0 exactly
    for t < 99.6 and for t strictly between 100.9 and 101. *)
Theorem tempScore_preimages (t : Q) :
  invalid (tempScore (VNum (Fin t))) = false
  /\ (score (tempScore (VNum (Fin t))) = 1 <-> (99.6 <= t /\ t <= 100.9)%Q)
  /\ (score (tempScore (VNum (Fin t))) = 2 <-> (101 <= t)%Q)
  /\ (score (tempScore (VNum (Fin t))) = 0
      <-> (t < 99.6 \/ (100.9 < t /\ t < 101))%Q).
Proof. exact (tempScore_bands t). Qed.

(** X8. A record whose temperature lies strictly between 100.9 and 101 is
    appended to [fever_patients] by the loop of [index.js] while its
    temperature adds 0 to the total risk. *)
Theorem Index_fever_without_temperature_points
        (r : report) (p : patient) (t : Q) :
  temperature p = VNum (Fin t) -> (100.9 < t)%Q -> (t < 101)%Q ->
  fever_patients (classify_report r p) = fever_patients r ++ [patient_id p]
  /\ score (tempScore (temperature p)) = 0
  /\ Spec.total_risk p
     = Spec.contribution (Index.bpScore (blood_pressure p))
       + Spec.contribution (Index.ageScore (age p)).
Proof.
  intros Ht H1 H2.
  assert (S0 : score (tempScore (temperature p)) = 0).
  { rewrite Ht. apply tempScore_bands. right. split; assumption. }
  assert (F : Spec.has_fever (temperature p) = true).
  { rewrite Ht. simpl. apply num_le_Fin. lra. }
  repeat split.
  - rewrite Index_fever_step, F. reflexivity.
  - exact S0.
  - unfold Spec.total_risk, Spec.contribution at 2.
    rewrite S0. destruct (invalid (tempScore (temperature p))); lia.
Qed.

Lemma Index_fever_without_temperature_points_witness :
  let p := {| patient_id := VStr "P9"; blood_pressure := VStr "110/70";
              temperature := VNum (Fin 100.95); age := VNum (Fin 30) |} in
  (temperature p = VNum (Fin 100.95) /\ (100.9 < 100.95)%Q
   /\ (100.95 < 101)%Q)
  /\ fever_patients (classify_report Index.empty_report p)
     = fever_patients Index.empty_report ++ [patient_id p]
  /\ score (tempScore (temperature p)) = 0
  /\ Spec.total_risk p
     = Spec.contribution (Index.bpScore (blood_pressure p))
       + Spec.contribution (Index.ageScore (age p)).
Proof.
  assert (A : (100.9 < 100.95)%Q) by lra.
  assert (B : (100.95 < 101)%Q) by lra.
  split; [repeat split; assumption|].
  exact (Index_fever_without_temperature_points Index.empty_report
           {| patient_id := VStr "P9"; blood_pressure := VStr "110/70";
              temperature := VNum (Fin 100.95); age := VNum (Fin 30) |}
           100.95 eq_refl A B).
Defined.

(** X9. [ageScore] on a finite age [a], never flagged.  In [index.js] it
    scores 0 exactly for a < 40, 1 exactly for 40 <= a <= 65 and 2 exactly
    for a > 65.  In part_000 it scores 1 exactly for a <= 65 and 2 exactly
    for a > 65, and never 0. *)
Theorem ageScore_preimages (a : Q) :
  (invalid (Index.ageScore (VNum (Fin a))) = false
   /\ (score (Index.ageScore (VNum (Fin a))) = 0 <-> (a < 40)%Q)
   /\ (score (Index.ageScore (VNum (Fin a))) = 1
       <-> (40 <= a /\ a <= 65)%Q)
   /\ (score (Index.ageScore (VNum (Fin a))) = 2 <-> (65 < a)%Q))
  /\ (invalid (Part000.ageScore (VNum (Fin a))) = false
      /\ (score (Part000.ageScore (VNum (Fin a))) = 1 <-> (a <= 65)%Q)
      /\ (score (Part000.ageScore (VNum (Fin a))) = 2 <-> (65 < a)%Q)
      /\ score (Part000.ageScore (VNum (Fin a))) <> 0).
Proof.
  unfold Index.ageScore, Part000.ageScore.
  change (isInvalid (VNum (Fin a))
          || negb (typeof (VNum (Fin a)) =? "number")%string) with false.
  unfold js_lt, js_le, js_ge, js_gt. cbn [ToNumber].
  rewrite !num_ge_le, !num_gt_lt. cbv iota.
  split_orders_lazily;
    repeat split; intros; try discriminate; try lra;
    try (exfalso; lra).
Qed.

(** Every branch of a scorer, one goal each. *)
Ltac each_branch :=
  repeat match goal with
         | |- context [if ?c then _ else _] => destruct c
         end.

Lemma Index_bpScore_range (v : value) :
  0 <= score (Index.bpScore v) <= 3.
Proof.
  unfold Index.bpScore. destruct (parseBP v); [|simpl; lia].
  each_branch; simpl; lia.
Qed.

Lemma tempScore_range (v : value) : 0 <= score (tempScore v) <= 2.
Proof. unfold tempScore. each_branch; simpl; lia. Qed.

Lemma Index_ageScore_range (v : value) :
  0 <= score (Index.ageScore v) <= 2.
Proof. unfold Index.ageScore. each_branch; simpl; lia. Qed.

(** X10. In [index.js] the blood-pressure score lies between 0 and 3, the
    temperature and age scores between 0 and 2, a flagged result scores 0
    (what a signal contributes, counting a flagged signal as 0, is its
    score), and the total risk of a record lies between 0 and 7. *)
Theorem Index_score_ranges (p : patient) (v : value) :
  0 <= score (Index.bpScore v) <= 3
  /\ 0 <= score (tempScore v) <= 2
  /\ 0 <= score (Index.ageScore v) <= 2
  /\ Spec.contribution (Index.bpScore v) = score (Index.bpScore v)
  /\ Spec.contribution (tempScore v) = score (tempScore v)
  /\ Spec.contribution (Index.ageScore v) = score (Index.ageScore v)
  /\ 0 <= Index.totalRisk p <= 7.
Proof.
  pose proof (Index_bpScore_range (blood_pressure p)).
  pose proof (tempScore_range (temperature p)).
  pose proof (Index_ageScore_range (age p)).
  repeat split;
    try apply Index_bpScore_range; try apply tempScore_range;
    try apply Index_ageScore_range;
    try (apply contribution_score;
         first [ apply Index_bpScore_invalid_zero
               | apply tempScore_invalid_zero
               | apply Index_ageScore_invalid_zero ]);
    unfold Index.totalRisk; cbv zeta; lia.
Qed.

(** X11. In [index.js] no signal reaches the high-risk threshold alone: a
    record appended to [high_risk_patients] has at least two of its three
    scores above 0. *)
Theorem Index_high_risk_needs_two_signals (r : report) (p : patient) :
  high_risk_patients (classify_report r p)
  = high_risk_patients r ++ [patient_id p] ->
  (0 < score (Index.bpScore (blood_pressure p))
   /\ 0 < score (tempScore (temperature p)))
  \/ (0 < score (Index.bpScore (blood_pressure p))
      /\ 0 < score (Index.ageScore (age p)))
  \/ (0 < score (tempScore (temperature p))
      /\ 0 < score (Index.ageScore (age p))).
Proof.
  rewrite Index_high_risk_step, <- Index_totalRisk_spec.
  destruct (4 <=? Index.totalRisk p) eqn:E.
  - intros _. apply Z.leb_le in E. unfold Index.totalRisk in E.
    cbv zeta in E.
    pose proof (Index_bpScore_range (blood_pressure p)).
    pose proof (tempScore_range (temperature p)).
    pose proof (Index_ageScore_range (age p)).
    lia.
  - intro H. exfalso.
    apply (f_equal (@length value)) in H. rewrite length_app in H.
    simpl in H. lia.
Qed.

Lemma Index_high_risk_needs_two_signals_witness :
  high_risk_patients (classify_report Index.empty_report patient_at_4)
  = high_risk_patients Index.empty_report ++ [patient_id patient_at_4]
  /\ ((0 < score (Index.bpScore (blood_pressure patient_at_4))
       /\ 0 < score (tempScore (temperature patient_at_4)))
      \/ (0 < score (Index.bpScore (blood_pressure patient_at_4))
          /\ 0 < score (Index.ageScore (age patient_at_4)))
      \/ (0 < score (tempScore (temperature patient_at_4))
          /\ 0 < score (Index.ageScore (age patient_at_4)))).
Proof.
  split; [reflexivity|].
  exact (Index_high_risk_needs_two_signals Index.empty_report patient_at_4
           eq_refl).
Defined.

(** X12. [ageScore] of [index.js] never decreases with age: of two finite
    ages the greater one scores at least as much. *)
Theorem Index_ageScore_monotone (a b : Q) :
  (a <= b)%Q ->
  score (Index.ageScore (VNum (Fin a)))
  <= score (Index.ageScore (VNum (Fin b))).
Proof.
  intro H.
  destruct (Index_ageScore_table) as [_ [T _]]. rewrite !T. cbn [score].
  unfold Spec.age_band.
  destruct (a ?= 40)%Q eqn:A40; destruct (a ?= 65)%Q eqn:A65;
    destruct (b ?= 40)%Q eqn:B40; destruct (b ?= 65)%Q eqn:B65;
    compare_facts; try lia; exfalso; lra.
Qed.

Lemma Index_ageScore_monotone_witness :
  (39 <= 66)%Q
  /\ score (Index.ageScore (VNum (Fin 39)))
     <= score (Index.ageScore (VNum (Fin 66))).
Proof.
  assert (H : (39 <= 66)%Q) by lra.
  split; [exact H|]. exact (Index_ageScore_monotone 39 66 H).
Defined.

(* ================================================================== *)
(** ** More on the classification loop *)

Lemma Index_bpScore_flag (v : value) :
  invalid (Index.bpScore v)
  = match parseBP v with None => true | Some _ => false end.
Proof.
  unfold Index.bpScore. destruct (parseBP v); [|reflexivity].
  each_branch; reflexivity.
Qed.

Lemma Part000_bpScore_flag (v : value) :
  invalid (Part000.bpScore v)
  = match parseBP v with None => true | Some _ => false end.
Proof.
  unfold Part000.bpScore. destruct (parseBP v); [|reflexivity].
  each_branch; reflexivity.
Qed.

(** X13. The fever list of [index.js] after a page: the ids appended are
    those of the records whose temperature is of type number and at least
    99.6, in the order of the page, whatever the flags of the three
    signals. *)
Theorem Index_fever_list (st : Index.run_state) (data : list patient) :
  fever_patients (Index.payload (Index.classify_all st data))
  = fever_patients (Index.payload st)
    ++ map patient_id
         (filter (fun p => Spec.has_fever (temperature p)) data).
Proof. apply Index_fever_iff_numeric_at_least_99_6. Qed.

(** X14. The data-quality list of [index.js] after a page: the ids
    appended are those of the records for which [parseBP] returns [null],
    or whose temperature is not a number, or whose age is not a number, in
    the order of the page; and [processedCount] grows by the length of the
    page. *)
Theorem Index_data_quality_list (st : Index.run_state) (data : list patient) :
  data_quality_issues (Index.payload (Index.classify_all st data))
  = data_quality_issues (Index.payload st)
    ++ map patient_id
         (filter (fun p =>
                    match parseBP (blood_pressure p) with
                    | None => true
                    | Some _ => false
                    end
                    || Spec.not_numeric (temperature p)
                    || Spec.not_numeric (age p)) data)
  /\ Index.processedCount (Index.classify_all st data)
     = Index.processedCount st + Z.of_nat (length data).
Proof.
  split; [|apply Index_classify_all_frame].
  rewrite Index_classify_all_payload.
  generalize (Index.payload st) as r.
  induction data as [|p data IH]; intro r; simpl.
  - rewrite app_nil_r. reflexivity.
  - rewrite IH, Index_data_quality_step, Index_bpScore_flag.
    destruct (scorer_flags (temperature p)) as [-> _].
    destruct (scorer_flags (age p)) as [_ [-> _]].
    destruct (match parseBP (blood_pressure p) with
              | None => true | Some _ => false end
              || Spec.not_numeric (temperature p)
              || Spec.not_numeric (age p)); simpl; [|reflexivity].
    rewrite <- app_assoc. reflexivity.
Qed.

(** X15. In [index.js] a record whose temperature is flagged is never
    appended to [fever_patients], and it is always appended to
    [data_quality_issues]. *)
Theorem Index_flagged_temperature_is_no_fever (r : report) (p : patient) :
  invalid (tempScore (temperature p)) = true ->
  fever_patients (classify_report r p) = fever_patients r
  /\ data_quality_issues (classify_report r p)
     = data_quality_issues r ++ [patient_id p].
Proof.
  intro H. split.
  - rewrite Index_fever_step.
    destruct (scorer_flags (temperature p)) as [E _].
    rewrite H in E. destruct (temperature p); try discriminate; reflexivity.
  - rewrite Index_data_quality_step, H, orb_true_r. reflexivity.
Qed.

Lemma Index_flagged_temperature_is_no_fever_witness :
  let p := {| patient_id := VStr "P5"; blood_pressure := VStr "110/70";
              temperature := VStr "101"; age := VNum (Fin 30) |} in
  invalid (tempScore (temperature p)) = true
  /\ fever_patients (classify_report Index.empty_report p)
     = fever_patients Index.empty_report
  /\ data_quality_issues (classify_report Index.empty_report p)
     = data_quality_issues Index.empty_report ++ [patient_id p].
Proof.
  split; [reflexivity|].
  exact (Index_flagged_temperature_is_no_fever Index.empty_report
           {| patient_id := VStr "P5"; blood_pressure := VStr "110/70";
              temperature := VStr "101"; age := VNum (Fin 30) |} eq_refl).
Defined.

(* ================================================================== *)
(** ** part_000 against index.js *)

Lemma bpScore_compare (v : value) :
  score (Index.bpScore v) <= score (Part000.bpScore v)
  <= score (Index.bpScore v) + 1.
Proof.
  unfold Index.bpScore, Part000.bpScore.
  destruct (parseBP v); [|simpl; lia].
  each_branch; simpl; lia.
Qed.

Lemma ageScore_compare (v : value) :
  score (Index.ageScore v) <= score (Part000.ageScore v)
  <= score (Index.ageScore v) + 1.
Proof.
  destruct v as [| |b|n|s|o]; try (simpl; lia).
  - destruct n as [| |a|]; try (vm_compute; split; discriminate).
    unfold Index.ageScore, Part000.ageScore.
    change (isInvalid (VNum (Fin a))
            || negb (typeof (VNum (Fin a)) =? "number")%string) with false.
    unfold js_lt, js_le, js_ge, js_gt. cbn [ToNumber].
    rewrite !num_ge_le, !num_gt_lt. cbv iota.
    split_orders_lazily; try lia; exfalso; lra.
  - unfold Index.ageScore, Part000.ageScore.
    change (negb (typeof (VStr s) =? "number")%string) with true.
    rewrite orb_true_r. simpl. lia.
Qed.

Lemma Part000_classify_all_data_quality (data : list patient) :
  forall r r',
    data_quality_issues r = data_quality_issues r' ->
    data_quality_issues (Part000.classify_all r data)
    = data_quality_issues (fold_left classify_report data r').
Proof.
  unfold Part000.classify_all.
  induction data as [|p data IH]; intros r r' E; simpl; [exact E|].
  apply IH. rewrite Index_data_quality_step.
  unfold Part000.classify. cbn [data_quality_issues].
  rewrite Part000_bpScore_flag, Index_bpScore_flag, E.
  destruct (scorer_flags (age p)) as [_ [-> ->]].
  reflexivity.
Qed.

(** X16. part_000 and [index.js] flag the same fields, so the loops of the
    two scripts build the same [data_quality_issues] from the same page. *)
Theorem Part000_same_data_quality_issues (r : report) (data : list patient) :
  data_quality_issues (Part000.classify_all r data)
  = data_quality_issues (fold_left classify_report data r).
Proof. apply Part000_classify_all_data_quality. reflexivity. Qed.

(** X17. part_000 never scores a record lower than [index.js], and at most
    2 higher: the blood-pressure and age scores are each the same or one
    more, the temperature score is the same.  A record [index.js] lists as
    high risk or as fever is therefore listed so by part_000 as well. *)
Theorem Part000_scores_at_least_Index (r : report) (p : patient) :
  (Index.totalRisk p <= Part000.totalRisk p <= Index.totalRisk p + 2)
  /\ (high_risk_patients (classify_report r p)
      = high_risk_patients r ++ [patient_id p]
      -> high_risk_patients (Part000.classify r p)
         = high_risk_patients r ++ [patient_id p])
  /\ (fever_patients (classify_report r p)
      = fever_patients r ++ [patient_id p]
      -> fever_patients (Part000.classify r p)
         = fever_patients r ++ [patient_id p]).
Proof.
  assert (T : Index.totalRisk p <= Part000.totalRisk p
              <= Index.totalRisk p + 2).
  { unfold Index.totalRisk, Part000.totalRisk. cbv zeta.
    pose proof (bpScore_compare (blood_pressure p)).
    pose proof (ageScore_compare (age p)). lia. }
  split; [exact T|]. split.
  - rewrite Index_high_risk_step, <- Index_totalRisk_spec.
    destruct (4 <=? Index.totalRisk p) eqn:E.
    + intros _. apply Z.leb_le in E.
      unfold Part000.classify. cbn [high_risk_patients].
      change (0 + (score (Part000.bpScore (blood_pressure p))
                   + score (tempScore (temperature p))
                   + score (Part000.ageScore (age p))))
        with (Part000.totalRisk p).
      replace (Part000.totalRisk p >=? 4) with true
        by (symmetry; apply Z.geb_le; lia).
      reflexivity.
    + intro H. exfalso.
      apply (f_equal (@length value)) in H. rewrite length_app in H.
      simpl in H. lia.
  - rewrite Index_fever_step.
    destruct (Spec.has_fever (temperature p)) eqn:F.
    + intros _. unfold Part000.classify. cbn [fever_patients].
      destruct (temperature p) as [| |b|n|s|o]; try discriminate.
      unfold js_ge. cbn [ToNumber]. rewrite num_ge_le.
      simpl in F. rewrite F. reflexivity.
    + intro H. exfalso.
      apply (f_equal (@length value)) in H. rewrite length_app in H.
      simpl in H. lia.
Qed.

(** X18. In part_000 a stage-2 blood pressure alone makes a record high
    risk: with a systolic value of 140 or more and a diastolic value
    outside 80..89 the blood-pressure score is 4 and the id is appended to
    [high_risk_patients] whatever the temperature and the age. *)
Theorem Part000_stage_2_alone_is_high_risk
        (r : report) (p : patient) (a b : Q) :
  parseBP (blood_pressure p)
  = Some {| sys := VNum (Fin a); dia := VNum (Fin b) |} ->
  (140 <= a)%Q -> (b < 80 \/ 89 < b)%Q ->
  score (Part000.bpScore (blood_pressure p)) = 4
  /\ high_risk_patients (Part000.classify r p)
     = high_risk_patients r ++ [patient_id p].
Proof.
  intros H Ha Hb.
  assert (S4 : score (Part000.bpScore (blood_pressure p)) = 4).
  { unfold Part000.bpScore. rewrite H. cbn [sys dia].
    unfold js_lt, js_le, js_ge. cbn [ToNumber]. rewrite !num_ge_le.
    split_orders_lazily; try reflexivity; exfalso; lra. }
  split; [exact S4|].
  unfold Part000.classify. cbn [high_risk_patients].
  pose proof (tempScore_range (temperature p)).
  pose proof (ageScore_compare (age p)).
  pose proof (Index_ageScore_range (age p)).
  replace (0 + (score (Part000.bpScore (blood_pressure p))
                + score (tempScore (temperature p))
                + score (Part000.ageScore (age p))) >=? 4) with true
    by (symmetry; apply Z.geb_le; lia).
  reflexivity.
Qed.

Lemma Part000_stage_2_alone_is_high_risk_witness :
  let p := {| patient_id := VStr "P6"; blood_pressure := VStr "150/70";
              temperature := VNull; age := VNull |} in
  (parseBP (blood_pressure p)
   = Some {| sys := VNum (Fin 150); dia := VNum (Fin 70) |}
   /\ (140 <= 150)%Q /\ (70 < 80 \/ 89 < 70)%Q)
  /\ score (Part000.bpScore (blood_pressure p)) = 4
  /\ high_risk_patients (Part000.classify Index.empty_report p)
     = high_risk_patients Index.empty_report ++ [patient_id p].
Proof.
  assert (A : (140 <= 150)%Q) by lra.
  assert (B : (70 < 80 \/ 89 < 70)%Q) by lra.
  split; [repeat split; assumption|].
  exact (Part000_stage_2_alone_is_high_risk Index.empty_report
           {| patient_id := VStr "P6"; blood_pressure := VStr "150/70";
              temperature := VNull; age := VNull |} 150 70 eq_refl A B).
Defined.

Lemma Part000_scores_at_least_Index_witness :
  (Index.totalRisk patient_at_4 <= Part000.totalRisk patient_at_4
   <= Index.totalRisk patient_at_4 + 2)
  /\ (high_risk_patients (classify_report Index.empty_report patient_at_4)
      = high_risk_patients Index.empty_report ++ [patient_id patient_at_4]
      /\ high_risk_patients (Part000.classify Index.empty_report patient_at_4)
         = high_risk_patients Index.empty_report
           ++ [patient_id patient_at_4])
  /\ (fever_patients (classify_report Index.empty_report patient_at_4)
      = fever_patients Index.empty_report ++ [patient_id patient_at_4]
      /\ fever_patients (Part000.classify Index.empty_report patient_at_4)
         = fever_patients Index.empty_report ++ [patient_id patient_at_4]).
Proof.
  destruct (Part000_scores_at_least_Index Index.empty_report patient_at_4)
    as [T [H F]].
  split; [exact T|]. split.
  - split; [reflexivity | exact (H eq_refl)].
  - split; [reflexivity | exact (F eq_refl)].
Defined.

(* ================================================================== *)
(** ** More on fetchWithRetry *)


(** An attempt either yields a 2xx response or fails. *)
Lemma attempt_cases (w : Part001.attempt_env) :
  (exists res, Part001.fetched w = Resolved res /\ ok res = true)
  \/ Part001.failing w = true.
Proof.
  unfold Part001.failing. destruct (Part001.fetched w) as [res|reason].
  - destruct (ok res) eqn:E; [left; eauto | right; reflexivity].
  - right. reflexivity.
Qed.

(** One unfolding of [fetchWithRetry] on a 2xx response. *)
Lemma fetchWithRetry_ok
      (w : Part001.attempt_env) (net : list Part001.attempt_env)
      (retries attempt : Z) (res : response) :
  Part001.fetched w = Resolved res -> ok res = true ->
  Part001.fetchWithRetry (w :: net) retries attempt
  = (Some (Part001.Fulfilled res), [Part001.Request], net).
Proof.
  intros F O. simpl. unfold Part001.try_block. rewrite F, O. reflexivity.
Qed.

(** One unfolding of [fetchWithRetry] on a failing attempt: while the
    budget lasts, one request and one sleep, then the next attempt;
    afterwards, the error of this attempt. *)
Lemma fetchWithRetry_failing
      (w : Part001.attempt_env) (net : list Part001.attempt_env)
      (retries attempt : Z) :
  Part001.failing w = true ->
  (attempt <= retries ->
   exists io1,
     Part001.requests io1 = 1%nat /\ Part001.sleeps io1 = 1%nat
     /\ Part001.fetchWithRetry (w :: net) retries attempt
        = let '(r, io3, rest) :=
            Part001.fetchWithRetry net retries (attempt + 1) in
          (r, io1 ++ io3, rest))
  /\ (retries < attempt ->
      Part001.fetchWithRetry (w :: net) retries attempt
      = (Some (Part001.RejectedWith (Part001.error_of retries w)),
         [Part001.Request], net)).
Proof.
  unfold Part001.failing, Part001.error_of. intro F.
  destruct (Part001.fetched w) as [res|reason] eqn:Fw.
  - apply negb_true_iff in F.
    destruct (Part001.retryable (status res)) eqn:R.
    + assert (A : Part001.answered_retryable w = true).
      { unfold Part001.answered_retryable. rewrite Fw. exact R. }
      rewrite (fetchWithRetry_retryable w net retries attempt A).
      unfold Part001.status_of. rewrite Fw.
      split; intro H.
      * replace (attempt >? retries) with false by (symmetry; lia).
        exists (snd (Part001.try_block w retries attempt)).
        split; [apply try_block_requests|]. split; [|reflexivity].
        unfold Part001.try_block. rewrite Fw, F, R.
        replace (attempt >? retries) with false by (symmetry; lia).
        reflexivity.
      * replace (attempt >? retries) with true by (symmetry; lia).
        reflexivity.
    + assert (A : Part001.answered_terminal w = true).
      { unfold Part001.answered_terminal. rewrite Fw, F, R. reflexivity. }
      rewrite (fetchWithRetry_terminal w net retries attempt A).
      unfold Part001.status_of. rewrite Fw.
      split; intro H.
      * replace (attempt <=? retries) with true by (symmetry; lia).
        exists [Part001.Request; Part001.Sleep (Part001.backoff attempt)].
        split; [reflexivity|]. split; reflexivity.
      * replace (attempt <=? retries) with false by (symmetry; lia).
        reflexivity.
  - simpl. unfold Part001.try_block, Part001.catch_block. rewrite Fw.
    split; intro H.
    + replace (attempt <=? retries) with true by (symmetry; lia).
      exists [Part001.Request; Part001.Sleep (Part001.backoff attempt)].
      split; [reflexivity|]. split; [reflexivity|].
      destruct (Part001.fetchWithRetry net retries (attempt + 1))
        as [[r io3] rest]. reflexivity.
    + replace (attempt <=? retries) with false by (symmetry; lia).
      reflexivity.
Qed.


(** What a resolved call went through. *)
Lemma fetchWithRetry_fulfilled_inv
        (net : list Part001.attempt_env) :
  forall (retries attempt : Z) (res : response)
         (io : list Part001.io) (rest : list Part001.attempt_env),
    Part001.fetchWithRetry net retries attempt
    = (Some (Part001.Fulfilled res), io, rest) ->
    ok res = true
    /\ exists used w,
        net = used ++ w :: rest
        /\ Part001.fetched w = Resolved res
        /\ forallb Part001.failing used = true
        /\ Part001.requests io = S (length used).
Proof.
  induction net as [|w net IH]; intros retries attempt res io rest H.
  - discriminate.
  - destruct (attempt_cases w) as [[res' [F O]]|F].
    + rewrite (fetchWithRetry_ok w net retries attempt res' F O) in H.
      injection H as <- <- <-. split; [exact O|].
      exists [], w. repeat split; auto.
    + destruct (fetchWithRetry_failing w net retries attempt F) as [A B].
      destruct (Z_le_gt_dec attempt retries) as [L|G].
      * destruct (A L) as [io1 [R1 [_ E]]]. rewrite E in H.
        destruct (Part001.fetchWithRetry net retries (attempt + 1))
          as [[r io3] rest'] eqn:E'.
        injection H as -> <- <-.
        destruct (IH retries (attempt + 1) res io3 rest' E')
          as [O [used [w' [-> [F' [U R]]]]]].
        split; [exact O|].
        exists (w :: used), w'. repeat split; auto.
        -- simpl. rewrite F, U. reflexivity.
        -- rewrite requests_app, R1, R. reflexivity.
      * rewrite (B ltac:(lia)) in H. discriminate.
Qed.

(** X20. [fetchWithRetry] resolves only with a 2xx response, the one of
    the last attempt it made: every attempt before it failed, each was
    requested once, and the script after it is untouched. *)
Theorem fetchWithRetry_resolves_with_2xx_only
        (net : list Part001.attempt_env) :
  forall (retries attempt : Z) (res : response)
         (io : list Part001.io) (rest : list Part001.attempt_env),
    Part001.fetchWithRetry net retries attempt
    = (Some (Part001.Fulfilled res), io, rest) ->
    ok res = true
    /\ exists used w,
        net = used ++ w :: rest
        /\ Part001.fetched w = Resolved res
        /\ forallb Part001.failing used = true
        /\ Part001.requests io = S (length used).
Proof. exact (fetchWithRetry_fulfilled_inv net). Qed.

Lemma fetchWithRetry_resolves_with_2xx_only_witness :
  let net := [Part001.answered 503 None 0; Part001.answered 404 None 0;
              Part001.answered 204 None 0; Part001.answered 500 None 0] in
  let res := {| status := 204; retry_after := None; json := None |} in
  let io := [Part001.Request; Part001.Warn 503 1 5 (Fin 1000);
             Part001.Sleep (Fin 1000);
             Part001.Request; Part001.Sleep (Fin 2000);
             Part001.Request] in
  Part001.fetchWithRetry net 5 1
  = (Some (Part001.Fulfilled res), io, [Part001.answered 500 None 0])
  /\ ok res = true
  /\ exists used w,
      net = used ++ w :: [Part001.answered 500 None 0]
      /\ Part001.fetched w = Resolved res
      /\ forallb Part001.failing used = true
      /\ Part001.requests io = S (length used).
Proof.
  split; [reflexivity|].
  exact (fetchWithRetry_resolves_with_2xx_only
           [Part001.answered 503 None 0; Part001.answered 404 None 0;
            Part001.answered 204 None 0; Part001.answered 500 None 0]
           5 1 {| status := 204; retry_after := None; json := None |}
           [Part001.Request; Part001.Warn 503 1 5 (Fin 1000);
            Part001.Sleep (Fin 1000);
            Part001.Request; Part001.Sleep (Fin 2000);
            Part001.Request]
           [Part001.answered 500 None 0] eq_refl).
Defined.

(** X21. Any failure is retried while the budget lasts: after failing
    attempts of whatever kind (a retryable status, any other status
    outside 2xx, a failed [fetch]), the last of them made at attempt
    [retries] at the latest, a 2xx response resolves the call, after one
    request per attempt; what follows in the script is untouched. *)
Theorem fetchWithRetry_recovers (fails : list Part001.attempt_env) :
  forall (w : Part001.attempt_env) (rest : list Part001.attempt_env)
         (retries attempt : Z) (res : response),
    forallb Part001.failing fails = true ->
    attempt + Z.of_nat (length fails) <= retries + 1 ->
    Part001.fetched w = Resolved res -> ok res = true ->
    exists io,
      Part001.fetchWithRetry (fails ++ w :: rest) retries attempt
      = (Some (Part001.Fulfilled res), io, rest)
      /\ Part001.requests io = S (length fails).
Proof.
  induction fails as [|f fails IH];
    intros w rest retries attempt res Hall Hlen F O.
  - simpl app. rewrite (fetchWithRetry_ok w rest retries attempt res F O).
    exists [Part001.Request]. split; reflexivity.
  - simpl in Hall. apply andb_true_iff in Hall. destruct Hall as [Hf Hall].
    rewrite <- app_comm_cons.
    destruct (fetchWithRetry_failing f (fails ++ w :: rest) retries attempt
                Hf) as [A _].
    destruct A as [io1 [R1 [_ E]]]; [simpl length in Hlen; lia|].
    rewrite E.
    destruct (IH w rest retries (attempt + 1) res Hall) as [io3 [E3 R3]];
      auto.
    { simpl length in Hlen. lia. }
    rewrite E3. exists (io1 ++ io3). split; [reflexivity|].
    rewrite requests_app, R1, R3. reflexivity.
Qed.

Lemma fetchWithRetry_recovers_witness :
  let fails := [Part001.answered 404 None 0;
                {| Part001.fetched := Rejected "ECONNRESET";
                   Part001.random := 0 |};
                Part001.answered 503 None 0] in
  let w := Part001.answered 200 None 0 in
  let res := {| status := 200; retry_after := None; json := None |} in
  (forallb Part001.failing fails = true
   /\ 1 + Z.of_nat (length fails) <= 5 + 1
   /\ Part001.fetched w = Resolved res /\ ok res = true)
  /\ exists io,
      Part001.fetchWithRetry (fails ++ w :: [Part001.answered 500 None 0])
        5 1
      = (Some (Part001.Fulfilled res), io, [Part001.answered 500 None 0])
      /\ Part001.requests io = S (length fails).
Proof.
  assert (L : 1 + Z.of_nat
                    (length [Part001.answered 404 None 0;
                             {| Part001.fetched := Rejected "ECONNRESET";
                                Part001.random := 0 |};
                             Part001.answered 503 None 0]) <= 5 + 1)
    by (simpl; lia).
  split; [repeat split; try reflexivity; exact L|].
  exact (fetchWithRetry_recovers
           [Part001.answered 404 None 0;
            {| Part001.fetched := Rejected "ECONNRESET";
               Part001.random := 0 |};
            Part001.answered 503 None 0]
           (Part001.answered 200 None 0) [Part001.answered 500 None 0]
           5 1 {| status := 200; retry_after := None; json := None |}
           eq_refl L eq_refl eq_refl).
Defined.

(** X22. When every attempt fails up to attempt [retries + 1], the call
    rejects with the error of that last attempt alone: "Failed after
    [retries] retries" with its status when the status is retryable,
    "Non-retryable error" with its status for another status outside 2xx,
    the error of [fetch] when [fetch] itself failed.  Every attempt was
    requested once and what follows in the script is untouched. *)
Theorem fetchWithRetry_gives_up (fails : list Part001.attempt_env) :
  forall (last_one : Part001.attempt_env)
         (rest : list Part001.attempt_env) (retries attempt : Z),
    forallb Part001.failing (fails ++ [last_one]) = true ->
    attempt + Z.of_nat (length fails) = retries + 1 ->
    exists io,
      Part001.fetchWithRetry (fails ++ last_one :: rest) retries attempt
      = (Some (Part001.RejectedWith (Part001.error_of retries last_one)),
         io, rest)
      /\ Part001.requests io = S (length fails).
Proof.
  induction fails as [|f fails IH];
    intros last_one rest retries attempt Hall Hlen.
  - simpl in Hall. rewrite andb_true_r in Hall. simpl in Hlen.
    destruct (fetchWithRetry_failing last_one rest retries attempt Hall)
      as [_ B].
    simpl app. rewrite B by lia.
    exists [Part001.Request]. split; reflexivity.
  - simpl in Hall. apply andb_true_iff in Hall. destruct Hall as [Hf Hall].
    rewrite <- app_comm_cons.
    destruct (fetchWithRetry_failing f (fails ++ last_one :: rest) retries
                attempt Hf) as [A _].
    destruct A as [io1 [R1 [_ E]]]; [simpl length in Hlen; lia|].
    rewrite E.
    destruct (IH last_one rest retries (attempt + 1) Hall) as [io3 [E3 R3]].
    { simpl length in Hlen. lia. }
    rewrite E3. exists (io1 ++ io3). split; [reflexivity|].
    rewrite requests_app, R1, R3. reflexivity.
Qed.

Lemma fetchWithRetry_gives_up_witness :
  let fails := [Part001.answered 500 None 0; Part001.answered 503 None 0] in
  let last_one := {| Part001.fetched := Rejected "ETIMEDOUT";
                     Part001.random := 0 |} in
  (forallb Part001.failing (fails ++ [last_one]) = true
   /\ 1 + Z.of_nat (length fails) = 2 + 1)
  /\ exists io,
      Part001.fetchWithRetry
        (fails ++ last_one :: [Part001.answered 200 None 0]) 2 1
      = (Some (Part001.RejectedWith (Part001.NetworkError "ETIMEDOUT")),
         io, [Part001.answered 200 None 0])
      /\ Part001.requests io = S (length fails).
Proof.
  split; [split; reflexivity|].
  exact (fetchWithRetry_gives_up
           [Part001.answered 500 None 0; Part001.answered 503 None 0]
           {| Part001.fetched := Rejected "ETIMEDOUT";
              Part001.random := 0 |}
           [Part001.answered 200 None 0] 2 1 eq_refl eq_refl).
Defined.

Lemma two_power_at_least (n k : Z) :
  0 <= k -> k <= n -> (inject_Z (2 ^ k) <= 2 ^ n)%Q.
Proof.
  intros Hk Hn.
  rewrite <- (Zpower_Qpower 2 n) by lia.
  rewrite <- Zle_Qle. apply Z.pow_le_mono_r; lia.
Qed.

(** X23. The backoff [Math.min(1000 * 2 ** (attempt - 1), 10000)] never
    exceeds 10000 ms; from the first attempt on it is at least 1000 ms, and
    from the fifth attempt on it is exactly 10000 ms. *)
Theorem backoff_bounds (attempt : Z) :
  1 <= attempt ->
  num_le (Fin 1000) (Part001.backoff attempt) = true
  /\ num_le (Part001.backoff attempt) (Fin 10000) = true
  /\ Part001.backoff (Z.max attempt 5) = Fin 10000.
Proof.
  intro H.
  assert (B : forall a, 1 <= a ->
              exists x, (x == 1000 * 2 ^ (a - 1))%Q
                        /\ Part001.backoff a
                           = match (x ?= 10000)%Q with
                             | Gt => Fin 10000
                             | _ => Fin x
                             end).
  { intros a Ha. unfold Part001.backoff, pow2, num_mul, Math_min.
    cbn [num_compare].
    exists (Qred (1000 * Qred (2 ^ (a - 1)))). split.
    - rewrite !Qred_correct. reflexivity.
    - destruct (Qred (1000 * Qred (2 ^ (a - 1))) ?= 10000)%Q;
        reflexivity. }
  split; [|split].
  - destruct (B attempt H) as [x [Ex ->]].
    pose proof (two_power_at_least (attempt - 1) 0 ltac:(lia) ltac:(lia))
      as P. change (inject_Z (2 ^ 0)) with 1%Q in P.
    destruct (x ?= 10000)%Q eqn:C; compare_facts;
      apply num_le_Fin; rewrite ?Ex; lra.
  - destruct (B attempt H) as [x [Ex ->]].
    destruct (x ?= 10000)%Q eqn:C; compare_facts;
      apply num_le_Fin; lra.
  - destruct (B (Z.max attempt 5) ltac:(lia)) as [x [Ex ->]].
    pose proof (two_power_at_least (Z.max attempt 5 - 1) 4
                  ltac:(lia) ltac:(lia)) as P.
    change (inject_Z (2 ^ 4)) with 16%Q in P.
    destruct (x ?= 10000)%Q eqn:C; compare_facts;
      try reflexivity; exfalso; rewrite Ex in C; lra.
Qed.

Lemma backoff_bounds_witness :
  1 <= 3
  /\ num_le (Fin 1000) (Part001.backoff 3) = true
  /\ num_le (Part001.backoff 3) (Fin 10000) = true
  /\ Part001.backoff (Z.max 3 5) = Fin 10000.
Proof.
  assert (H : 1 <= 3) by lia.
  split; [exact H|]. exact (backoff_bounds 3 H).
Defined.

(* ================================================================== *)
(** ** The run of part_001 *)

Lemma console_only_app (a b : list event) :
  console_only (a ++ b) = console_only a ++ console_only b.
Proof. apply filter_app. Qed.

Lemma console_only_bpScore_log (v : value) :
  console_only (Index.bpScore_log v) = Index.bpScore_log v.
Proof. unfold Index.bpScore_log. destruct (parseBP v); reflexivity. Qed.

Lemma without_requests_classify (st : Index.run_state) (p : patient) :
  without_requests (Index.classify st p)
  = Index.classify (without_requests st) p.
Proof.
  unfold without_requests, Index.classify. cbn [Index.page
    Index.processedCount Index.totalExpected Index.hasNext Index.payload
    Index.console].
  rewrite console_only_app, console_only_bpScore_log. reflexivity.
Qed.

Lemma without_requests_classify_all (data : list patient) :
  forall st,
    without_requests (Index.classify_all st data)
    = Index.classify_all (without_requests st) data.
Proof.
  unfold Index.classify_all.
  induction data as [|p data IH]; intro st; simpl; [reflexivity|].
  rewrite IH, without_requests_classify. reflexivity.
Qed.

Lemma without_requests_log (st : Index.run_state) (e : event) :
  without_requests (Index.log st e)
  = if is_fetch e then without_requests st
    else Index.log (without_requests st) e.
Proof.
  unfold without_requests, Index.log. cbn [Index.page
    Index.processedCount Index.totalExpected Index.hasNext Index.payload
    Index.console].
  rewrite console_only_app. unfold console_only at 2. simpl.
  destruct (is_fetch e); simpl; [rewrite app_nil_r|]; reflexivity.
Qed.

Lemma without_requests_log_page (st : Index.run_state) (page : Z) (n : nat) :
  without_requests (Index.log st (LogPage page n))
  = Index.log (without_requests st) (LogPage page n).
Proof. apply (without_requests_log st (LogPage page n)). Qed.

Lemma without_requests_advance (st : Index.run_state) (v : value) :
  without_requests (Index.advance st v)
  = Index.advance (without_requests st) v.
Proof. reflexivity. Qed.

(** One turn of the loop does the same with and without the requests in
    the console. *)
Lemma process_page_without_requests (st : Index.run_state) (res : response) :
  Index.process_page (without_requests st) res
  = match Index.process_page st res with
    | inl st' => inl (without_requests st')
    | inr (e, out) => inr (e, console_only out)
    end.
Proof.
  unfold Index.process_page.
  destruct (json res) as [body|]; [|reflexivity].
  cbv zeta.
  change (Index.totalExpected (without_requests st))
    with (Index.totalExpected st).
  destruct (strict_eq (Index.totalExpected st) VNull);
    destruct (Json.pagination body) as [pg|];
    destruct (Json.data body) as [d|]; try reflexivity.
  - rewrite without_requests_advance, without_requests_classify_all,
      without_requests_log_page. reflexivity.
  - rewrite without_requests_advance, without_requests_classify_all,
      without_requests_log_page. reflexivity.
  - rewrite <- without_requests_log_page,
      <- without_requests_classify_all. reflexivity.
Qed.

Lemma finish_without_requests (st : Index.run_state)
      (net : list (Z * Part001.io)) :
  Part001.finish (without_requests st) net
  = as_Part001 (Index.finish st) net.
Proof.
  unfold Part001.finish, Index.finish.
  change (Index.processedCount (without_requests st))
    with (Index.processedCount st).
  change (Index.totalExpected (without_requests st))
    with (Index.totalExpected st).
  destruct (negb (strict_eq (VNum (num_of_Z (Index.processedCount st)))
                    (Index.totalExpected st)));
    unfold as_Part001, console_only; simpl;
    rewrite !filter_app; reflexivity.
Qed.

Lemma without_requests_log_fetch (st : Index.run_state) (page limit : Z) :
  without_requests (Index.log st (Fetch page limit)) = without_requests st.
Proof. apply (without_requests_log st (Fetch page limit)). Qed.

Lemma Part001_loop_exit (outside : list (list Part001.attempt_env))
      (st : Index.run_state) (net : list (Z * Part001.io)) :
  truthy (Index.hasNext st) = false ->
  Part001.loop outside st net = Part001.finish st net.
Proof. intro H. destruct outside; simpl; rewrite H; reflexivity. Qed.

(** A turn of the loop issues no request of its own and moves to the next
    page. *)
Lemma process_page_fetches (st : Index.run_state) (res : response) :
  match Index.process_page st res with
  | inl st' =>
      Index.page st' = Index.page st + 1
      /\ filter is_fetch (Index.console st')
         = filter is_fetch (Index.console st)
  | inr (_, out) => filter is_fetch out = filter is_fetch (Index.console st)
  end.
Proof.
  unfold Index.process_page.
  destruct (json res) as [body|]; [|reflexivity].
  cbv zeta.
  destruct (Json.data body) as [d|], (Json.pagination body) as [pg|];
    destruct (strict_eq (Index.totalExpected st) VNull);
    try reflexivity.
  all: cbn [Index.page Index.advance Index.console];
    match goal with
    | |- context [Index.classify_all ?s ?l] =>
        destruct (Index_classify_all_frame l s) as [H1 [_ [_ [_ [_ H6]]]]]
    end;
    cbv zeta in H1, H6; rewrite ?H1, H6; simpl;
    rewrite filter_app; simpl; rewrite app_nil_r; try split; reflexivity.
Qed.

(** The consistency check and the payload issue no request. *)
Lemma finish_fetches (st : Index.run_state) :
  filter is_fetch (console_of (Index.finish st))
  = filter is_fetch (Index.console st).
Proof.
  unfold Index.finish.
  destruct (negb (strict_eq (VNum (num_of_Z (Index.processedCount st)))
                    (Index.totalExpected st)));
    simpl; rewrite !filter_app; simpl; rewrite !app_nil_r; reflexivity.
Qed.

(** The loop of part_001, fed responses through [fetchWithRetry], does
    what the loop of [index.js] does when fed them directly, one invocation
    of [fetchWithRetry] for each request of [index.js]. *)
Lemma Part001_loop_trace (outside : list (list Part001.attempt_env)) :
  forall (rs : list response) (st : Index.run_state)
         (net : list (Z * Part001.io)),
    Forall2 delivers outside rs ->
    exists k,
      filter is_fetch (console_of (Index.loop (map Resolved rs) st))
      = filter is_fetch (Index.console st)
        ++ map (fun i => Fetch (Index.page st + Z.of_nat i) Index.limit)
             (seq 0 k)
      /\ Part001.loop outside (without_requests st) net
         = as_Part001 (Index.loop (map Resolved rs) st)
             (net ++ invocations k (Index.page st) outside).
Proof.
  induction outside as [|script outside IH]; intros rs st net H;
    (destruct (truthy (Index.hasNext st)) eqn:T;
     [|exists 0%nat;
       rewrite (Part001_loop_exit _ (without_requests st) net T),
         (Index_loop_exit _ st T), finish_fetches;
       simpl; rewrite !app_nil_r; split;
       [reflexivity | apply finish_without_requests]]).
  - inversion H; subst. exists 1%nat.
    cbn [map Part001.loop Index.loop].
    change (Index.hasNext (without_requests st)) with (Index.hasNext st).
    rewrite T. split.
    + simpl. rewrite filter_app, Z.add_0_r. reflexivity.
    + unfold as_Part001.
      rewrite <- (without_requests_log_fetch st (Index.page st) Index.limit).
      reflexivity.
  - inversion H as [|? res ? rs' D H']; subst.
    unfold delivers in D.
    cbn [map Part001.loop Index.loop].
    change (Index.hasNext (without_requests st)) with (Index.hasNext st).
    rewrite T.
    destruct (Part001.fetchWithRetry_default script) as [[r t] rest] eqn:E.
    simpl in D. subst r.
    destruct (fetchWithRetry_fulfilled_inv script 5 1 res t rest E)
      as [O _].
    rewrite O. cbn [negb].
    rewrite <- (without_requests_log_fetch st (Index.page st) Index.limit).
    rewrite process_page_without_requests.
    pose proof (process_page_fetches
                  (Index.log st (Fetch (Index.page st) Index.limit)) res)
      as F.
    destruct (Index.process_page
                (Index.log st (Fetch (Index.page st) Index.limit)) res)
      as [st'|[e out]].
    + destruct F as [F1 F2].
      change (Index.page st' = Index.page st + 1) in F1.
      change (filter is_fetch (Index.console st')
              = filter is_fetch
                  (Index.console st ++ [Fetch (Index.page st) Index.limit]))
        in F2.
      destruct (IH rs' st'
                  (net ++ map (pair (Index.page st)) t) H')
        as [k [K1 K2]].
      exists (S k). split.
      * cbn [console_of]. rewrite K1, F2, F1, filter_app.
        rewrite <- app_assoc. f_equal.
        cbn [seq map filter is_fetch app]. rewrite Z.add_0_r. f_equal.
        rewrite <- seq_shift, map_map.
        apply map_ext. intro i. f_equal. lia.
      * change (Index.page
                  (without_requests
                     (Index.log st (Fetch (Index.page st) Index.limit))))
          with (Index.page st).
        rewrite K2, F1. cbn [invocations]. rewrite E. cbn [fst snd].
        rewrite <- app_assoc. reflexivity.
    + change (filter is_fetch out
              = filter is_fetch
                  (Index.console st ++ [Fetch (Index.page st) Index.limit]))
        in F.
      exists 1%nat. split.
      * cbn [console_of]. rewrite F, filter_app.
        cbn [seq map filter is_fetch app]. rewrite Z.add_0_r. reflexivity.
      * change (Index.page
                  (without_requests
                     (Index.log st (Fetch (Index.page st) Index.limit))))
          with (Index.page st).
        cbn [invocations]. rewrite E. cbn [fst snd].
        rewrite app_nil_r. reflexivity.
Qed.

(** X24. When each invocation of [fetchWithRetry] ends up resolving with a
    response, [run] of part_001 ends as [run] of [index.js] does when it
    is given these responses directly: the same payload, the same error or
    the same wait, and the same lines written by [run] and [bpScore].  What
    part_001 adds is the trace of [fetchWithRetry]: one invocation for each
    request [index.js] makes, page by page, each with its requests, its
    sleeps and its "Retrying" warnings, console lines that [index.js] never
    writes. *)
Theorem Part001_run_as_Index_run
        (outside : list (list Part001.attempt_env)) (rs : list response) :
  Forall2 delivers outside rs ->
  let o := Index.run (map Resolved rs) in
  Part001.run outside
  = as_Part001 o
      (invocations (length (filter is_fetch (console_of o))) 1 outside).
Proof.
  intros H o.
  destruct (Part001_loop_trace outside rs Index.initial [] H) as [k [K1 K2]].
  unfold o, Index.run. rewrite K1. simpl app.
  rewrite length_map, length_seq. exact K2.
Qed.

(** Two pages.  The first arrives after a 500, which is announced by a
    "Retrying" warning; the second after a failed [fetch] and a 404, which
    are retried in silence. *)
Lemma Part001_run_as_Index_run_witness :
  let page1 := page_response [patient_at_4] (VNum (Fin 2)) (VBool true) in
  let page2 := page_response [patient_at_3] (VNum (Fin 2)) (VBool false) in
  let outside :=
    [[Part001.answered 500 None 0;
      {| Part001.fetched := Resolved page1; Part001.random := 0 |}];
     [{| Part001.fetched := Rejected "ECONNRESET"; Part001.random := 0 |};
      Part001.answered 404 None 0;
      {| Part001.fetched := Resolved page2; Part001.random := 0 |}]] in
  Forall2 delivers outside [page1; page2]
  /\ Part001.run outside
     = as_Part001 (Index.run (map Resolved [page1; page2]))
         [(1, Part001.Request); (1, Part001.Warn 500 1 5 (Fin 1000));
          (1, Part001.Sleep (Fin 1000)); (1, Part001.Request);
          (2, Part001.Request); (2, Part001.Sleep (Fin 1000));
          (2, Part001.Request); (2, Part001.Sleep (Fin 2000));
          (2, Part001.Request)].
Proof.
  assert (D : Forall2 delivers
                [[Part001.answered 500 None 0;
                  {| Part001.fetched :=
                       Resolved (page_response [patient_at_4]
                                   (VNum (Fin 2)) (VBool true));
                     Part001.random := 0 |}];
                 [{| Part001.fetched := Rejected "ECONNRESET";
                     Part001.random := 0 |};
                  Part001.answered 404 None 0;
                  {| Part001.fetched :=
                       Resolved (page_response [patient_at_3]
                                   (VNum (Fin 2)) (VBool false));
                     Part001.random := 0 |}]]
                [page_response [patient_at_4] (VNum (Fin 2)) (VBool true);
                 page_response [patient_at_3] (VNum (Fin 2))
                   (VBool false)]).
  { repeat constructor. }
  split; [exact D|].
  exact (Part001_run_as_Index_run _ _ D).
Defined.

(** X25. [run] of part_001 never throws "Patient API error": the response
    [fetchWithRetry] resolves with is always 2xx, so the test of [res.ok]
    that follows it never fires.  A status outside 2xx reaches the caller
    only as an error of [fetchWithRetry]. *)
Theorem Part001_run_never_throws_patient_api_error
        (outside : list (list Part001.attempt_env)) :
  match Part001.run outside with
  | Part001.Thrown (inr (Index.PatientApiError _ _)) _ _ => False
  | Part001.Thrown (inr (Index.FetchRejected _)) _ _ => False
  | _ => True
  end.
Proof.
  unfold Part001.run. generalize Index.initial as st.
  generalize (@nil (Z * Part001.io)) as net.
  induction outside as [|script outside IH]; intros net st.
  - simpl. destruct (truthy (Index.hasNext st)); exact I.
  - cbn [Part001.loop].
    destruct (truthy (Index.hasNext st)); [|exact I].
    destruct (Part001.fetchWithRetry_default script) as [[r t] rest] eqn:E.
    destruct r as [[res|err]|]; try exact I.
    destruct (fetchWithRetry_fulfilled_inv script 5 1 res t rest E)
      as [O _].
    rewrite O. cbn [negb].
    unfold Index.process_page.
    destruct (json res) as [body|]; [|exact I].
    cbv zeta.
    destruct (strict_eq (Index.totalExpected st) VNull);
      destruct (Json.pagination body) as [pg|];
      destruct (Json.data body) as [d|]; try exact I; apply IH.
Qed.

(* ================================================================== *)
(** ** More on the pagination loop of index.js *)

(** Well-formed pages that all announce another page leave the loop
    running, on the state they build. *)
Lemma Index_loop_prefix (es : list Spec.page_envelope) :
  forall (rs : list response) (net : list fetch_outcome)
         (st : Index.run_state),
    map Spec.envelope_of rs = map Some es ->
    map Spec.hasMore es = repeat true (length es) ->
    truthy (Index.hasNext st) = true ->
    Index.loop (map Resolved rs ++ net) st
    = Index.loop net (fold_left page_step es st)
    /\ truthy (Index.hasNext (fold_left page_step es st)) = true.
Proof.
  induction es as [|e es IH]; intros rs net st Hrs Hmore Hn.
  - destruct rs; [|discriminate]. split; [reflexivity | exact Hn].
  - destruct rs as [|r rs]; [discriminate|].
    simpl in Hrs. injection Hrs as Hr Hrs.
    simpl in Hmore. injection Hmore as Hm Hmore.
    simpl map. rewrite <- app_comm_cons.
    rewrite (Index_loop_step _ _ _ _ Hr Hn).
    simpl fold_left. apply IH; auto.
Qed.

Lemma classify_all_no_payload_log (d : list patient) :
  forall s,
    filter is_payload_log (Index.console (Index.classify_all s d))
    = filter is_payload_log (Index.console s).
Proof.
  unfold Index.classify_all.
  induction d as [|p d IHd]; intro s; simpl; [reflexivity|].
  rewrite IHd. simpl. rewrite filter_app.
  replace (filter is_payload_log (Index.bpScore_log (blood_pressure p)))
    with (@nil event)
    by (unfold Index.bpScore_log; destruct (parseBP _); reflexivity).
  apply app_nil_r.
Qed.

Lemma pages_no_payload_log (es : list Spec.page_envelope) :
  forall s,
    filter is_payload_log (Index.console (fold_left page_step es s))
    = filter is_payload_log (Index.console s).
Proof.
  induction es as [|e es IHes]; intro s; simpl; [reflexivity|].
  rewrite IHes. unfold page_step. simpl.
  rewrite classify_all_no_payload_log. simpl.
  destruct (strict_eq (Index.totalExpected s) VNull); simpl;
    rewrite !filter_app; simpl; rewrite !app_nil_r; reflexivity.
Qed.

(** The state of [run] after well-formed pages that all announce another
    page: the loop goes on, nothing was logged as payload, and with the
    request that comes next the pages 1 to n + 1 were asked for in order. *)
Lemma Index_after_pages (rs : list response) (es : list Spec.page_envelope) :
  map Spec.envelope_of rs = map Some es ->
  map Spec.hasMore es = repeat true (length es) ->
  exists st,
    (forall net, Index.loop (map Resolved rs ++ net) Index.initial
                 = Index.loop net st)
    /\ truthy (Index.hasNext st) = true
    /\ Index.page st = Z.of_nat (S (length rs))
    /\ filter is_payload_log (Index.console st) = []
    /\ filter is_fetch
         (Index.console st ++ [Fetch (Index.page st) Index.limit])
       = map (fun i => Fetch (Z.of_nat i) Index.limit)
           (seq 1 (S (length rs))).
Proof.
  intros Hrs Hmore.
  exists (fold_left page_step es Index.initial).
  destruct (pages_facts es Index.initial) as [H1 [_ [_ [_ [_ H6]]]]].
  cbv zeta in *.
  set (st := fold_left page_step es Index.initial) in *.
  assert (Hlen : length rs = length es).
  { apply (f_equal (@length _)) in Hrs. rewrite !length_map in Hrs.
    exact Hrs. }
  assert (Hpage : Index.page st = Z.of_nat (S (length rs))).
  { rewrite H1, Hlen. change (Index.page Index.initial) with 1.
    rewrite Nat2Z.inj_succ. unfold Z.succ. apply Z.add_comm. }
  split; [|split; [|split; [|split]]].
  - intro net.
    apply (Index_loop_prefix es rs net Index.initial Hrs Hmore eq_refl).
  - apply (Index_loop_prefix es rs [] Index.initial Hrs Hmore eq_refl).
  - exact Hpage.
  - unfold st. rewrite pages_no_payload_log. reflexivity.
  - rewrite filter_app, H6. change (Index.page Index.initial) with 1.
    change (filter is_fetch (Index.console Index.initial)) with (@nil event).
    change (filter is_fetch [Fetch (Index.page st) Index.limit])
      with [Fetch (Index.page st) Index.limit].
    rewrite Hpage, <- Hlen, app_nil_l.
    rewrite (seq_S (length rs) 1), map_app.
    f_equal.
    rewrite <- seq_shift, map_map. apply map_ext. intro i. f_equal. lia.
Qed.

(** X26. A page that cannot be fetched aborts [run] of [index.js]: after
    any number of well-formed pages that each announce another one, a
    response outside 2xx throws "Patient API error" with the number of
    that page and its status, and a failed [fetch] throws its own error.
    The pages were requested in order, the failing one last; no payload is
    logged, whatever was collected so far. *)
Theorem Index_run_aborts_on_failed_page
        (rs : list response) (es : list Spec.page_envelope)
        (bad : fetch_outcome) (rest : list fetch_outcome) :
  map Spec.envelope_of rs = map Some es ->
  map Spec.hasMore es = repeat true (length es) ->
  failed_fetch bad = true ->
  exists out,
    Index.run (map Resolved rs ++ bad :: rest)
    = Index.Thrown (failure_on (Z.of_nat (S (length rs))) bad) out
    /\ filter is_payload_log out = []
    /\ filter is_fetch out
       = map (fun i => Fetch (Z.of_nat i) Index.limit)
           (seq 1 (S (length rs))).
Proof.
  intros Hrs Hmore Hbad. unfold Index.run.
  destruct (Index_after_pages rs es Hrs Hmore)
    as [st [E [T [Hpage [Hpay Hf]]]]].
  rewrite E.
  exists (Index.console st ++ [Fetch (Index.page st) Index.limit]).
  split; [|split].
  - destruct bad as [res|reason]; simpl in Hbad |- *; rewrite T.
    + rewrite Hbad. rewrite Hpage. reflexivity.
    + reflexivity.
  - rewrite filter_app, Hpay. reflexivity.
  - exact Hf.
Qed.

Lemma Index_run_aborts_on_failed_page_witness :
  let rs := [page_response [patient_at_4] (VNum (Fin 9)) (VBool true)] in
  let es := [{| Spec.records := [patient_at_4]; Spec.total := Fin 9;
                Spec.hasMore := true |}] in
  let bad := Resolved {| status := 503; retry_after := None;
                         json := None |} in
  (map Spec.envelope_of rs = map Some es
   /\ map Spec.hasMore es = repeat true (length es)
   /\ failed_fetch bad = true)
  /\ exists out,
      Index.run (map Resolved rs ++ bad :: [])
      = Index.Thrown (Index.PatientApiError 2 503) out
      /\ filter is_payload_log out = []
      /\ filter is_fetch out = [Fetch 1 10; Fetch 2 10].
Proof.
  split; [repeat split; reflexivity|].
  exact (Index_run_aborts_on_failed_page
           [page_response [patient_at_4] (VNum (Fin 9)) (VBool true)]
           [{| Spec.records := [patient_at_4]; Spec.total := Fin 9;
               Spec.hasMore := true |}]
           (Resolved {| status := 503; retry_after := None;
                        json := None |})
           [] eq_refl eq_refl eq_refl).
Defined.

(** X27. The loop of [index.js] has no bound of its own: as long as every
    page announces another one, [run] asks for the next page; after n such
    pages it has issued n + 1 requests, for the pages 1 to n + 1 in order,
    and has logged no payload. *)
Theorem Index_run_keeps_asking
        (rs : list response) (es : list Spec.page_envelope) :
  map Spec.envelope_of rs = map Some es ->
  map Spec.hasMore es = repeat true (length es) ->
  exists out,
    Index.run (map Resolved rs) = Index.Awaiting out
    /\ filter is_payload_log out = []
    /\ filter is_fetch out
       = map (fun i => Fetch (Z.of_nat i) Index.limit)
           (seq 1 (S (length rs))).
Proof.
  intros Hrs Hmore.
  destruct (Index_after_pages rs es Hrs Hmore)
    as [st [E [T [Hpage [Hpay Hf]]]]].
  exists (Index.console st ++ [Fetch (Index.page st) Index.limit]).
  unfold Index.run.
  rewrite <- (app_nil_r (map Resolved rs)), E.
  simpl. rewrite T. split; [reflexivity|]. split.
  - rewrite filter_app, Hpay. reflexivity.
  - exact Hf.
Qed.

Lemma Index_run_keeps_asking_witness :
  let rs := [page_response [patient_at_4] (VNum (Fin 9)) (VBool true);
             page_response [] (VNum (Fin 9)) (VBool true)] in
  let es := [{| Spec.records := [patient_at_4]; Spec.total := Fin 9;
                Spec.hasMore := true |};
             {| Spec.records := []; Spec.total := Fin 9;
                Spec.hasMore := true |}] in
  (map Spec.envelope_of rs = map Some es
   /\ map Spec.hasMore es = repeat true (length es))
  /\ exists out,
      Index.run (map Resolved rs) = Index.Awaiting out
      /\ filter is_payload_log out = []
      /\ filter is_fetch out = [Fetch 1 10; Fetch 2 10; Fetch 3 10].
Proof.
  split; [split; reflexivity|].
  exact (Index_run_keeps_asking
           [page_response [patient_at_4] (VNum (Fin 9)) (VBool true);
            page_response [] (VNum (Fin 9)) (VBool true)]
           [{| Spec.records := [patient_at_4]; Spec.total := Fin 9;
               Spec.hasMore := true |};
            {| Spec.records := []; Spec.total := Fin 9;
               Spec.hasMore := true |}] eq_refl eq_refl).
Defined.

(** X28. A first page whose [hasNext] is falsy (false, but also absent,
    null, 0 or the empty string) ends [run] of [index.js] after that page:
    no second request is made, the report is built from that page alone,
    and the warning is emitted unless [pagination.total] is a number equal
    to the number of records; a total that is null, absent or a string
    always warns, the comparison being strict. *)
Theorem Index_run_single_page
        (d : list patient) (t v : value) (rest : list fetch_outcome) :
  truthy v = false ->
  let count := Z.of_nat (length d) in
  let report := fold_left classify_report d Index.empty_report in
  exists out,
    Index.run (Resolved (page_response d t v) :: rest)
    = Index.Completed report (out ++ [LogPayload report])
    /\ filter is_warning out
       = (if strict_eq (VNum (num_of_Z count)) t then []
          else [WarnMismatch count t])
    /\ filter is_fetch out = [Fetch 1 10].
Proof.
  intros Hv count report.
  set (st0 := Index.log Index.initial (Fetch 1 Index.limit)).
  set (st2 := Index.log (Index.set_totalExpected st0 t)
                (LogPage 1 (length d))).
  set (st3 := Index.advance (Index.classify_all st2 d) v).
  assert (E : Index.run (Resolved (page_response d t v) :: rest)
              = Index.finish st3).
  { unfold Index.run. cbn [Index.loop].
    change (truthy (Index.hasNext Index.initial)) with true. cbv iota.
    change (negb (ok (page_response d t v))) with false. cbv iota.
    change (Index.process_page
              (Index.log Index.initial
                 (Fetch (Index.page Index.initial) Index.limit))
              (page_response d t v))
      with (@inl Index.run_state (Index.error * list event) st3).
    cbv iota. apply Index_loop_exit. exact Hv. }
  destruct (Index_classify_all_frame d st2) as [_ [H2 [_ [H4 [H5 H6]]]]].
  cbv zeta in *.
  assert (P : Index.payload st3 = report).
  { unfold st3. cbn [Index.advance Index.payload].
    rewrite Index_classify_all_payload. reflexivity. }
  assert (C : Index.processedCount st3 = count).
  { unfold st3. cbn [Index.advance Index.processedCount]. rewrite H4.
    reflexivity. }
  assert (TE : Index.totalExpected st3 = t).
  { unfold st3. cbn [Index.advance Index.totalExpected]. rewrite H2.
    reflexivity. }
  assert (W : filter is_warning (Index.console st3) = []).
  { unfold st3. cbn [Index.advance Index.console]. rewrite H5.
    reflexivity. }
  assert (F : filter is_fetch (Index.console st3) = [Fetch 1 10]).
  { unfold st3. cbn [Index.advance Index.console]. rewrite H6.
    reflexivity. }
  rewrite E. unfold Index.finish. rewrite C, TE.
  destruct (strict_eq (VNum (num_of_Z count)) t); cbn [negb].
  - exists (Index.console st3). cbn [Index.log Index.payload Index.console].
    rewrite P. repeat split; assumption.
  - exists (Index.console st3 ++ [WarnMismatch count t]).
    cbn [Index.log Index.payload Index.console].
    rewrite P, !filter_app, W, F. repeat split.
Qed.

Lemma Index_run_single_page_witness :
  truthy VUndefined = false
  /\ exists out,
      Index.run (Resolved (page_response [patient_at_4] (VStr "1")
                             VUndefined)
                   :: [Rejected "unused"])
      = Index.Completed
          (fold_left classify_report [patient_at_4] Index.empty_report)
          (out ++ [LogPayload
                     (fold_left classify_report [patient_at_4]
                        Index.empty_report)])
      /\ filter is_warning out
         = (if strict_eq (VNum (num_of_Z (Z.of_nat (length [patient_at_4]))))
                 (VStr "1")
            then [] else [WarnMismatch (Z.of_nat (length [patient_at_4]))
                            (VStr "1")])
      /\ filter is_fetch out = [Fetch 1 10].
Proof.
  split; [reflexivity|].
  exact (Index_run_single_page [patient_at_4] (VStr "1") VUndefined
           [Rejected "unused"] eq_refl).
Defined.

(* ================================================================== *)
(** ** The run of part_000 *)

(** X29. Whatever the two calls of [fetch] do, [run] of part_000 submits
    at most one payload, and only after the patients were fetched with a
    2xx status and a body whose [data] could be iterated; the payload
    submitted is the classification of exactly that [data], starting from
    three empty lists. *)
Theorem Part000_run_submits_at_most_once
        (first : option fetch_outcome)
        (second : option Part000.submit_outcome) :
  match Part000.submitted (Part000.trace_of (Part000.run first second)) with
  | [] => True
  | [payload] =>
      exists res body patients,
        first = Some (Resolved res) /\ ok res = true
        /\ json res = Some body /\ Json.data body = Some patients
        /\ payload = Part000.classify_all Index.empty_report patients
  | _ => False
  end.
Proof.
  unfold Part000.run.
  destruct first as [[res|reason]|]; try exact I.
  destruct (ok res) eqn:O; [|exact I]. cbn [negb].
  destruct (json res) as [body|] eqn:J; [|exact I].
  destruct (Json.data body) as [patients|] eqn:D; [|exact I].
  cbv zeta. unfold Part000.submit.
  assert (G : exists res0 body0 patients0,
             Some (Resolved res) = Some (Resolved res0) /\ ok res0 = true
             /\ json res0 = Some body0 /\ Json.data body0 = Some patients0
             /\ Part000.classify_all
                  {| high_risk_patients := []; fever_patients := [];
                     data_quality_issues := [] |} patients
                = Part000.classify_all Index.empty_report patients0).
  { exists res, body, patients. repeat split; auto. }
  destruct second as [[status errText j|reason]|]; try exact G.
  destruct (negb ((200 <=? status) && (status <=? 299))); [exact G|].
  destruct j; exact G.
Qed.

(** X30. [run] of part_000 reports success only when both requests were
    answered with a 2xx status and the answer to the submission was JSON:
    the trace is then the fetch, the submission of the classified page,
    "Submission successful!" and the answer.  In every other case it
    throws or never ends. *)
Theorem Part000_run_completes_only_after_two_2xx
        (first : option fetch_outcome)
        (second : option Part000.submit_outcome)
        (trace : list Part000.action) :
  Part000.run first second = Part000.Completed trace ->
  exists res body patients status errText submitJson,
    first = Some (Resolved res) /\ ok res = true
    /\ json res = Some body /\ Json.data body = Some patients
    /\ second = Some (Part000.SubmitResolved status errText
                        (Some submitJson))
    /\ 200 <= status <= 299
    /\ trace = [Part000.FetchPatients;
                Part000.Submit
                  (Part000.classify_all Index.empty_report patients);
                Part000.LogSuccess; Part000.LogSubmitJson submitJson].
Proof.
  unfold Part000.run. intro H.
  destruct first as [[res|reason]|]; try discriminate.
  destruct (ok res) eqn:O; [|discriminate]. cbn [negb] in H.
  destruct (json res) as [body|] eqn:J; [|discriminate].
  destruct (Json.data body) as [patients|] eqn:D; [|discriminate].
  cbv zeta in H. unfold Part000.submit in H.
  destruct second as [[status errText j|reason]|]; try discriminate.
  destruct ((200 <=? status) && (status <=? 299)) eqn:S;
    [|discriminate].
  cbn [negb] in H. destruct j as [submitJson|]; [|discriminate].
  injection H as <-.
  apply andb_true_iff in S. destruct S as [S1 S2].
  apply Z.leb_le in S1, S2.
  exists res, body, patients, status, errText, submitJson.
  repeat split; auto.
Qed.

Lemma Part000_run_completes_only_after_two_2xx_witness :
  let first := Some (Resolved (page_response [patient_at_4] VNull VNull)) in
  let second := Some (Part000.SubmitResolved 200 "" (Some (VObject "ok"))) in
  let trace := [Part000.FetchPatients;
                Part000.Submit
                  {| high_risk_patients := [VStr "P4"];
                     fever_patients := [VStr "P4"];
                     data_quality_issues := [] |};
                Part000.LogSuccess;
                Part000.LogSubmitJson (VObject "ok")] in
  Part000.run first second = Part000.Completed trace
  /\ exists res body patients status errText submitJson,
      first = Some (Resolved res) /\ ok res = true
      /\ json res = Some body /\ Json.data body = Some patients
      /\ second = Some (Part000.SubmitResolved status errText
                          (Some submitJson))
      /\ 200 <= status <= 299
      /\ trace = [Part000.FetchPatients;
                  Part000.Submit
                    (Part000.classify_all Index.empty_report patients);
                  Part000.LogSuccess; Part000.LogSubmitJson submitJson].
Proof.
  split; [reflexivity|].
  exact (Part000_run_completes_only_after_two_2xx
           (Some (Resolved (page_response [patient_at_4] VNull VNull)))
           (Some (Part000.SubmitResolved 200 "" (Some (VObject "ok"))))
           [Part000.FetchPatients;
            Part000.Submit
              {| high_risk_patients := [VStr "P4"];
                 fever_patients := [VStr "P4"];
                 data_quality_issues := [] |};
            Part000.LogSuccess;
            Part000.LogSubmitJson (VObject "ok")] eq_refl).
Defined.
